(** * homework_bot: a shallow embedding of [homework.py]

    The bot polls the homework-review API, compares the status of the most
    recent homework with the last status it reported, and relays changes
    and failures to one Telegram chat.

    The embedding keeps the shape of the Python module:
    - JSON values as Python objects ([pyval]), with the few operations of
      the language the module relies on ([==], [in], [str], [.get]);
    - the functions [send_message], [check_tokens], [get_api_answer],
      [check_response], [parse_status] and [main] as computations in a
      monad [M] with state (the two locals of [main] and the trace of
      observable events) and exceptions;
    - the outside world (the HTTP endpoint, the Telegram bot) as oracles
      handed to the functions that talk to it. *)

From Stdlib Require Import ZArith List String Ascii Bool Lia.
From Stdlib Require Import DecimalString.
Import ListNotations.
Local Open Scope string_scope.
Local Open Scope Z_scope.

(** ** Text

    A Python [str] is carried as the bytes of its UTF-8 encoding; equality
    and concatenation agree with Python's on that encoding. *)

Definition dquote : string := String "034"%char EmptyString.
Definition squote : string := String "039"%char EmptyString.
Definition backslash : string := String "092"%char EmptyString.

Fixpoint join (sep : string) (l : list string) : string :=
  match l with
  | [] => ""
  | [x] => x
  | x :: rest => x ++ sep ++ join sep rest
  end.

Fixpoint has_char (c : ascii) (s : string) : bool :=
  match s with
  | EmptyString => false
  | String d s' => Ascii.eqb c d || has_char c s'
  end.

(** [sub in s] for two strings: [sub] occurs in [s]. *)
Fixpoint is_substring (sub s : string) : bool :=
  String.prefix sub s ||
  match s with
  | EmptyString => false
  | String _ s' => is_substring sub s'
  end.

(** [str(n)] for an [int]. *)
Definition str_of_Z (z : Z) : string := NilZero.string_of_int (Z.to_int z).

Definition hex_digit (n : N) : ascii :=
  ascii_of_N (if (n <? 10)%N then 48 + n else 87 + n)%N.

(** One character of [repr(s)], [q] being the quote that encloses it.
    Bytes above 127 belong to the encoding of a non-ASCII character and are
    kept, as Python keeps the printable ones. *)
Definition repr_char (q c : ascii) : string :=
  let n := N_of_ascii c in
  if Ascii.eqb c "092"%char then backslash ++ backslash
  else if Ascii.eqb c q then backslash ++ String q EmptyString
  else if (n =? 10)%N then backslash ++ "n"
  else if (n =? 13)%N then backslash ++ "r"
  else if (n =? 9)%N then backslash ++ "t"
  else if ((n <? 32) || (n =? 127))%N
       then backslash ++ "x" ++ String (hex_digit (n / 16)) (String (hex_digit (n mod 16)) EmptyString)
  else String c EmptyString.

Fixpoint repr_chars (q : ascii) (s : string) : string :=
  match s with
  | EmptyString => ""
  | String c s' => repr_char q c ++ repr_chars q s'
  end.

(** [repr(s)] for a [str]: single quotes, unless the text holds a single
    quote and no double quote. *)
Definition repr_str (s : string) : string :=
  let q := if has_char "039"%char s && negb (has_char "034"%char s)
           then "034"%char else "039"%char in
  String q EmptyString ++ repr_chars q s ++ String q EmptyString.

(** ** Python values

    What [response.json()] can return.  A [float] carries its value (a
    dyadic rational, an infinity or NaN) for comparisons and the text
    Python prints for it.  A [dict] keeps its items in insertion order;
    its keys are distinct, and a lookup takes the first binding. *)

Inductive float_val : Type :=
| FNaN
| FInf (negative : bool)
| FFin (m e : Z).            (* m * 2^e *)

#[warnings="-register-all"]
Inductive pyval : Type :=
| PNone
| PBool (b : bool)
| PInt (z : Z)
| PFloat (x : float_val) (repr : string)
| PStr (s : string)
| PList (l : list pyval)
| PDict (d : list (string * pyval)).

Fixpoint lookup {A : Type} (k : string) (d : list (string * A)) : option A :=
  match d with
  | [] => None
  | (k', v) :: d' => if String.eqb k k' then Some v else lookup k d'
  end.

Definition has_key {A : Type} (k : string) (d : list (string * A)) : bool :=
  match lookup k d with Some _ => true | None => false end.

(** [type(v).__name__] *)
Definition type_name (v : pyval) : string :=
  match v with
  | PNone => "NoneType"
  | PBool _ => "bool"
  | PInt _ => "int"
  | PFloat _ _ => "float"
  | PStr _ => "str"
  | PList _ => "list"
  | PDict _ => "dict"
  end.

(** [str(type(v))], what [f'{type(v)}'] prints. *)
Definition str_of_type (v : pyval) : string :=
  "<class '" ++ type_name v ++ "'>".

(** [repr(v)] *)
Fixpoint py_repr (v : pyval) : string :=
  match v with
  | PNone => "None"
  | PBool true => "True"
  | PBool false => "False"
  | PInt z => str_of_Z z
  | PFloat _ r => r
  | PStr s => repr_str s
  | PList l => "[" ++ join ", " (map py_repr l) ++ "]"
  | PDict d =>
      "{" ++ join ", " (map (fun kv => match kv with
                                       | (k, x) => repr_str k ++ ": " ++ py_repr x
                                       end) d) ++ "}"
  end.

(** [str(v)], what [f'{v}'] prints. *)
Definition py_str (v : pyval) : string :=
  match v with
  | PStr s => s
  | _ => py_repr v
  end.

(** Numbers compare by value across [bool], [int] and [float]. *)
Definition as_number (v : pyval) : option float_val :=
  match v with
  | PBool b => Some (FFin (if b then 1 else 0) 0)
  | PInt z => Some (FFin z 0)
  | PFloat x _ => Some x
  | _ => None
  end.

Definition float_eqb (x y : float_val) : bool :=
  match x, y with
  | FInf a, FInf b => Bool.eqb a b
  | FFin m1 e1, FFin m2 e2 =>
      let e := Z.min e1 e2 in
      m1 * 2 ^ (e1 - e) =? m2 * 2 ^ (e2 - e)
  | _, _ => false
  end.

(** [a == b] *)
Fixpoint py_eq (a b : pyval) {struct a} : bool :=
  match a, b with
  | PNone, PNone => true
  | PStr s, PStr t => String.eqb s t
  | PList l, PList l' =>
      (fix all2 (xs ys : list pyval) : bool :=
         match xs, ys with
         | [], [] => true
         | x :: xs', y :: ys' => py_eq x y && all2 xs' ys'
         | _, _ => false
         end) l l'
  | PDict d, PDict d' =>
      Nat.eqb (List.length d) (List.length d') &&
      (fix sub (items : list (string * pyval)) : bool :=
         match items with
         | [] => true
         | (k, x) :: items' =>
             match lookup k d' with
             | Some y => py_eq x y
             | None => false
             end && sub items'
         end) d
  | _, _ =>
      match as_number a, as_number b with
      | Some x, Some y => float_eqb x y
      | _, _ => false
      end
  end.

(** [a != b] *)
Definition py_ne (a b : pyval) : bool := negb (py_eq a b).

(** [hash(v)] succeeds: lists and dicts are unhashable. *)
Definition hashable (v : pyval) : bool :=
  match v with
  | PList _ | PDict _ => false
  | _ => true
  end.

(** ** Exceptions *)

Inductive exc_class : Type :=
| Exception | TypeError | KeyError | AttributeError | ValueError
| OtherError (name : string).

(** An exception object: its class and [str(error)].  Every class here
    derives from [Exception]; [SystemExit] does not and is an outcome of
    its own. *)
Record pyexc : Type := mkExc { exc_cls : exc_class; exc_str : string }.

(** [KeyError(arg)] prints as [repr(arg)]. *)
Definition mkKeyError (arg : string) : pyexc := mkExc KeyError (repr_str arg).

Inductive outcome (A : Type) : Type :=
| Ok (a : A)
| Raise (e : pyexc)
| SystemExit.
Arguments Ok {A} a.
Arguments Raise {A} e.
Arguments SystemExit {A}.

Definition obind {A B : Type} (c : outcome A) (k : A -> outcome B) : outcome B :=
  match c with
  | Ok a => k a
  | Raise e => Raise e
  | SystemExit => SystemExit
  end.

Notation "'let!' x ':=' c 'in' k" := (obind c (fun x => k))
  (at level 10, x name, c at level 100, k at level 200).

(** [key in container] for a [str] key.  The wording of the errors the
    interpreter raises is CPython's (3.7 to 3.13). *)
Definition py_in (key : string) (container : pyval) : outcome bool :=
  match container with
  | PDict d => Ok (has_key key d)
  | PList l => Ok (existsb (py_eq (PStr key)) l)
  | PStr s => Ok (is_substring key s)
  | _ => Raise (mkExc TypeError
                  ("argument of type '" ++ type_name container ++ "' is not iterable"))
  end.

(** [obj.get(key)]: only a dict has the method. *)
Definition py_get (obj : pyval) (key : string) : outcome pyval :=
  match obj with
  | PDict d => Ok (match lookup key d with Some v => v | None => PNone end)
  | _ => Raise (mkExc AttributeError
                  ("'" ++ type_name obj ++ "' object has no attribute 'get'"))
  end.

(** ** Module constants *)

Definition RETRY_PERIOD : Z := 600.
Definition ENDPOINT : string :=
  "https://practicum.yandex.ru/api/user_api/homework_statuses/".

Definition HOMEWORK_VERDICTS : list (string * string) :=
  [ ("approved", "Работа проверена: ревьюеру всё понравилось. Ура!");
    ("reviewing", "Работа взята на проверку ревьюером.");
    ("rejected", "Работа проверена: у ревьюера есть замечания.") ].

(** [status in HOMEWORK_VERDICTS]: the key is hashed first, which a list
    or a dict refuses; a hashable value that is not a [str] equals no key. *)
Definition in_HOMEWORK_VERDICTS (status : pyval) : outcome bool :=
  match status with
  | PStr s => Ok (has_key s HOMEWORK_VERDICTS)
  | PList _ | PDict _ =>
      Raise (mkExc TypeError ("unhashable type: '" ++ type_name status ++ "'"))
  | _ => Ok false
  end.

(** [HOMEWORK_VERDICTS.get(status)] *)
Definition HOMEWORK_VERDICTS_get (status : pyval) : pyval :=
  match status with
  | PStr s => match lookup s HOMEWORK_VERDICTS with
              | Some v => PStr v
              | None => PNone
              end
  | _ => PNone
  end.

(** The environment variables read at import time; [os.getenv] gives
    [None] for a variable that is not set. *)
Record environ : Type := mkEnviron {
  PRACTICUM_TOKEN : option string;
  TELEGRAM_TOKEN : option string;
  TELEGRAM_CHAT_ID : option string
}.

Definition str_of_env (v : option string) : string :=
  match v with Some s => s | None => "None" end.

(** ** Effects *)

Inductive level : Type := DEBUG | INFO | ERROR | CRITICAL.

Inductive event : Type :=
| Log (lvl : level) (msg : string)                                 (* logger.<lvl>(msg) *)
| HttpGet (url authorization : string) (from_date : pyval)         (* requests.get(...) *)
| BotSend (chat_id : option string) (text : string)                (* bot.send_message(...) called *)
| Sleep (seconds : Z).                                             (* time.sleep(...) *)

(** The locals of [main] that live across iterations, and what the
    process has done so far, oldest event first. *)
Record state : Type := mkState {
  timestamp : pyval;
  old_status : pyval;
  trace : list event
}.

Definition M (A : Type) : Type := state -> outcome A * state.

Definition ret {A : Type} (a : A) : M A := fun st => (Ok a, st).

Definition bind {A B : Type} (c : M A) (k : A -> M B) : M B :=
  fun st =>
    match c st with
    | (Ok a, st') => k a st'
    | (Raise e, st') => (Raise e, st')
    | (SystemExit, st') => (SystemExit, st')
    end.

Notation "x <- c ;; k" := (bind c (fun x => k))
  (at level 100, c at next level, right associativity).
Notation "c ;; k" := (bind c (fun _ => k))
  (at level 100, right associativity).

Definition lift {A : Type} (c : outcome A) : M A := fun st => (c, st).
Definition raise {A : Type} (e : pyexc) : M A := lift (Raise e).
(** [exit()] *)
Definition exit {A : Type} : M A := lift SystemExit.

(** The answer of an outside call: a value or an exception. *)
Definition call {A : Type} (answer : pyexc + A) : M A :=
  match answer with
  | inr a => ret a
  | inl error => raise error
  end.

Definition emit (e : event) : M unit :=
  fun st => (Ok tt, mkState (timestamp st) (old_status st) (trace st ++ [e])%list).
Definition log (lvl : level) (msg : string) : M unit := emit (Log lvl msg).
Definition sleep (seconds : Z) : M unit := emit (Sleep seconds).

Definition get_timestamp : M pyval := fun st => (Ok (timestamp st), st).
Definition get_old_status : M pyval := fun st => (Ok (old_status st), st).
Definition set_timestamp (v : pyval) : M unit :=
  fun st => (Ok tt, mkState v (old_status st) (trace st)).
Definition set_old_status (v : pyval) : M unit :=
  fun st => (Ok tt, mkState (timestamp st) v (trace st)).

(** [try: body / except Exception as error: handler error]; the handler
    starts from the state the body had reached. *)
Definition try_except {A : Type} (body : M A) (handler : pyexc -> M A) : M A :=
  fun st =>
    match body st with
    | (Raise e, st') => handler e st'
    | r => r
    end.

(** [try: body / except Exception as error: handler error / else: orelse];
    what [orelse] raises is not handled. *)
Definition try_except_else {A B : Type}
    (body : M A) (handler : pyexc -> M B) (orelse : A -> M B) : M B :=
  fun st =>
    match body st with
    | (Ok a, st') => orelse a st'
    | (Raise e, st') => handler e st'
    | (SystemExit, st') => (SystemExit, st')
    end.

(** [for x in l: body x] *)
Fixpoint for_each {A : Type} (l : list A) (body : A -> M unit) : M unit :=
  match l with
  | [] => ret tt
  | x :: l' => body x ;; for_each l' body
  end.

(** ** The outside world *)

(** A [requests.Response]: [json] is what [response.json()] returns
    ([inr]) or raises ([inl]). *)
Record Response : Type := mkResponse {
  status_code : Z;
  text : string;
  json : pyexc + pyval
}.

(** A [telegram.Bot]: [send_message chat_id text] delivers ([None]) or
    raises. *)
Record Bot : Type := mkBot {
  bot_send_message : option string -> string -> option pyexc
}.

(** What the world answers during one iteration of the loop:
    [requests_get url authorization from_date] returns a response ([inr])
    or raises ([inl]). *)
Record world : Type := mkWorld {
  requests_get : string -> string -> pyval -> pyexc + Response;
  bot : Bot
}.

(** ** The module's functions *)

Section Homework.

Variable cfg : environ.

(** [HEADERS['Authorization']] *)
Definition HEADERS_Authorization : string :=
  "OAuth " ++ str_of_env (PRACTICUM_TOKEN cfg).

Definition send_message (bot : Bot) (message : string) : M unit :=
  try_except
    (emit (BotSend (TELEGRAM_CHAT_ID cfg) message) ;;
     match bot_send_message bot (TELEGRAM_CHAT_ID cfg) message with
     | None => ret tt
     | Some error => raise error
     end ;;
     log DEBUG ("Бот отправил сообщение: " ++ message))
    (fun error =>
       let message := "Сбой в отправке сообщения с ошибкой " ++ exc_str error in
       log ERROR message).

Definition check_tokens : M unit :=
  for_each [TELEGRAM_CHAT_ID cfg; PRACTICUM_TOKEN cfg; TELEGRAM_CHAT_ID cfg]
    (fun env =>
       match env with
       | None =>
           let message :=
             "Отсутствует обязательная переменная окружения " ++ str_of_env env ++ "."
             ++ "Программа принудительно остановлена." in
           log CRITICAL message ;;
           exit
       | Some _ => ret tt
       end).

Definition get_api_answer (w : world) (timestamp : pyval) : M pyval :=
  let payload := timestamp in
  try_except_else
    (emit (HttpGet ENDPOINT HEADERS_Authorization payload) ;;
     response <- call (requests_get w ENDPOINT HEADERS_Authorization payload) ;;
     let status_code := status_code response in
     if negb (status_code =? 200) then
       let message :=
         "Эндпоинт " ++ ENDPOINT ++ " недоступен. "
         ++ "Код ответа API: " ++ str_of_Z status_code ++ "."
         ++ "Ошибка: " ++ text response in
       log ERROR message ;;
       raise (mkExc Exception message)
     else ret response)
    (fun error => raise (mkExc Exception (exc_str error)))
    (fun response =>
       log INFO "Запрос к API выполнен" ;;
       call (json response)).

End Homework.

Definition check_response (response : pyval) : outcome (list pyval) :=
  match response with
  | PNone => Raise (mkExc Exception "Ответ не получен")
  | PDict d =>
      if negb (has_key "homeworks" d) || negb (has_key "current_date" d) then
        Raise (mkKeyError "Отсутствуют ключи 'homeworks,current_date' в ответе")
      else
        match lookup "homeworks" d with
        | Some (PList homeworks) => Ok homeworks
        | Some other =>
            Raise (mkExc TypeError ("Ожидается список, получен " ++ str_of_type other))
        | None => Raise (mkKeyError "homeworks")   (* response['homeworks'] *)
        end
  | _ => Raise (mkExc TypeError ("Ожидается словарь, получен " ++ str_of_type response))
  end.

Definition parse_status (homework : pyval) : outcome string :=
  let! has_status := py_in "status" homework in
  if negb has_status then
    Raise (mkKeyError ("Нет такого ключа " ++ dquote ++ "status" ++ dquote))
  else
  let! status := py_get homework "status" in
  let! has_name := py_in "homework_name" homework in
  if negb has_name then
    Raise (mkKeyError ("Нет такого ключа " ++ dquote ++ "homework_name" ++ dquote))
  else
  let! homework_name := py_get homework "homework_name" in
  let! known := in_HOMEWORK_VERDICTS status in
  if negb known then
    Raise (mkExc Exception ("Неожиданный статус - " ++ py_str status))
  else
    let verdict := HOMEWORK_VERDICTS_get status in
    Ok ("Изменился статус проверки работы " ++ dquote ++ py_str homework_name ++ dquote
        ++ ". " ++ py_str verdict).

Section Main.

Variable cfg : environ.

(** The body of [try:] in the loop of [main]. *)
Definition poll (w : world) : M unit :=
  timestamp <- get_timestamp ;;
  response <- get_api_answer cfg w timestamp ;;
  homeworks <- lift (check_response response) ;;
  match homeworks with
  | first :: _ =>
      new_status <- lift (py_get first "status") ;;
      old_status <- get_old_status ;;
      if py_ne new_status old_status then
        message <- lift (parse_status first) ;;
        send_message cfg (bot w) message ;;
        set_old_status new_status
      else
        log DEBUG "Нет новых статусов"
  | [] => ret tt
  end ;;
  current_date <- lift (py_get response "current_date") ;;
  set_timestamp current_date.

(** One iteration of [while True:]. *)
Definition cycle (w : world) : M unit :=
  try_except
    (poll w)
    (fun error =>
       let message := "Сбой в работе программы: " ++ exc_str error in
       log ERROR message ;;
       send_message cfg (bot w) message) ;;
  sleep RETRY_PERIOD.

(** The loop, observed for as many iterations as there are worlds. *)
Fixpoint poll_loop (ws : list world) : M unit :=
  match ws with
  | [] => ret tt
  | w :: ws' => cycle w ;; poll_loop ws'
  end.

(** [main()]: [Bot_new] is what [Bot(token=TELEGRAM_TOKEN)] does (it
    raises or builds the bot), [now] is [int(time.time())]. *)
Definition main (Bot_new : option string -> option pyexc) (now : Z)
    (ws : list world) : M unit :=
  check_tokens cfg ;;
  match Bot_new (TELEGRAM_TOKEN cfg) with
  | Some error => raise error
  | None => ret tt
  end ;;
  set_timestamp (PInt now) ;;
  set_old_status (PStr "") ;;
  poll_loop ws.

End Main.

(** The state before [main] has bound its locals. *)
Definition start : state := mkState PNone PNone [].

(** The texts handed to the bot, in order. *)
Fixpoint notifications (tr : list event) : list string :=
  match tr with
  | [] => []
  | BotSend _ text :: tr' => text :: notifications tr'
  | _ :: tr' => notifications tr'
  end.

(** The keys of the verdict table, as Python values. *)
Definition verdict_keys : list pyval :=
  map (fun kv => PStr (fst kv)) HOMEWORK_VERDICTS.

(** [st] after it has recorded [evs]; the locals are untouched. *)
Definition extend (st : state) (evs : list event) : state :=
  mkState (timestamp st) (old_status st) (trace st ++ evs)%list.

(** What [send_message] logs after calling the bot. *)
Definition delivery_log (cfg : environ) (b : Bot) (message : string) : event :=
  match bot_send_message b (TELEGRAM_CHAT_ID cfg) message with
  | None => Log DEBUG ("Бот отправил сообщение: " ++ message)
  | Some error => Log ERROR ("Сбой в отправке сообщения с ошибкой " ++ exc_str error)
  end.

(** The request one call of [get_api_answer] makes. *)
Definition request (cfg : environ) (ts : pyval) : event :=
  HttpGet ENDPOINT (HEADERS_Authorization cfg) ts.

(** The text of the failure report of the loop. *)
Definition failure_report (error : pyexc) : string :=
  "Сбой в работе программы: " ++ exc_str error.

(** Last Status is the empty string or a key of the verdict table. *)
Definition status_invariant (st : state) : Prop :=
  old_status st = PStr "" \/ In (old_status st) verdict_keys.

(** What one run of [poll] can do from a cursor [ts] and a Last Status
    [old], whatever the bot does and whatever happened before: fail with
    the locals untouched, succeed without a notification, or notify once
    and take the new status. *)
Inductive poll_behaviour (cfg : environ)
    (get : string -> string -> pyval -> pyexc + Response) (ts old : pyval) : Prop :=
| poll_fails error evs :
    notifications evs = [] ->
    (forall b tr, poll cfg (mkWorld get b) (mkState ts old tr)
                  = (Raise error, mkState ts old (tr ++ evs)%list)) ->
    poll_behaviour cfg get ts old
| poll_quiet current_date evs :
    notifications evs = [] ->
    (forall b tr, poll cfg (mkWorld get b) (mkState ts old tr)
                  = (Ok tt, mkState current_date old (tr ++ evs)%list)) ->
    poll_behaviour cfg get ts old
| poll_notifies current_date first new_status message evs :
    notifications evs = [] ->
    py_get first "status" = Ok new_status ->
    parse_status first = Ok message ->
    (forall b tr, poll cfg (mkWorld get b) (mkState ts old tr)
                  = (Ok tt,
                     mkState current_date new_status
                       (tr ++ evs
                        ++ [BotSend (TELEGRAM_CHAT_ID cfg) message;
                            delivery_log cfg b message])%list)) ->
    poll_behaviour cfg get ts old.

(** The cursor and Last Status of a state. *)
Definition locals (st : state) : pyval * pyval := (timestamp st, old_status st).

(** Two runs of the loop see the same answers of the endpoint. *)
Definition same_requests (w w' : world) : Prop := requests_get w = requests_get w'.

(** A stage of the cycle fails with [error]: the API client, the response
    validator, or the status parser once the loop has called it. *)
Inductive stage_failure (cfg : environ) (w : world) (st : state) (error : pyexc)
  : Prop :=
| api_client_fails st1 :
    get_api_answer cfg w (timestamp st) st = (Raise error, st1) ->
    stage_failure cfg w st error
| validator_fails response st1 :
    get_api_answer cfg w (timestamp st) st = (Ok response, st1) ->
    check_response response = Raise error ->
    stage_failure cfg w st error
| parser_fails response st1 first rest new_status :
    get_api_answer cfg w (timestamp st) st = (Ok response, st1) ->
    check_response response = Ok (first :: rest) ->
    py_get first "status" = Ok new_status ->
    py_ne new_status (old_status st) = true ->
    parse_status first = Raise error ->
    stage_failure cfg w st error.


(** What [check_tokens] logs before it exits. *)
Definition missing_variable_message : string :=
  "Отсутствует обязательная переменная окружения None."
  ++ "Программа принудительно остановлена.".

(** ** Observations on traces *)

Definition is_request (e : event) : bool :=
  match e with HttpGet _ _ _ => true | _ => false end.

Definition is_sleep (e : event) : bool :=
  match e with Sleep _ => true | _ => false end.

(** Logging and messaging: neither a request nor a sleep. *)
Definition is_talk (e : event) : bool :=
  match e with Log _ _ | BotSend _ _ => true | _ => false end.

(** How many events of [tr] satisfy [f]. *)
Definition count (f : event -> bool) (tr : list event) : nat :=
  List.length (filter f tr).

(** ** Sample inputs

    The configuration, the bots, the worlds and the responses that the
    scenarios and the concrete runs below use. *)

Definition sample_environ : environ :=
  mkEnviron (Some "practicum-token") (Some "telegram-token") (Some "chat-id").

Definition delivering : Bot := mkBot (fun _ _ => None).
Definition failing (error : pyexc) : Bot := mkBot (fun _ _ => Some error).

(** The endpoint answers every request with the same response. *)
Definition answering (code : Z) (body : string) (parsed : pyexc + pyval) (b : Bot)
  : world :=
  mkWorld (fun _ _ _ => inr (mkResponse code body parsed)) b.

Definition scenario_homework : pyval :=
  PDict [("status", PStr "reviewing"); ("homework_name", PStr "hw1")].

Definition scenario_response : pyval :=
  PDict [("homeworks", PList [scenario_homework]); ("current_date", PInt 1600)].

Definition scenario_message : string :=
  "Изменился статус проверки работы " ++ dquote ++ "hw1" ++ dquote
  ++ ". Работа взята на проверку ревьюером.".

Definition scenario_world : world :=
  answering 200 "" (inr scenario_response) delivering.

Definition scenario_state : state := mkState (PInt 1000) (PStr "") [].

(** A homework with a known status and no name. *)
Definition nameless_homework : pyval := PDict [("status", PStr "approved")].

Definition nameless_response : pyval :=
  PDict [("homeworks", PList [nameless_homework]); ("current_date", PInt 1600)].

(** A homework whose status is a list. *)
Definition unhashable_homework : pyval :=
  PDict [("status", PList []); ("homework_name", PStr "hw1")].

(** A homework whose status is a string the table does not know. *)
Definition unknown_homework : pyval :=
  PDict [("status", PStr "lost"); ("homework_name", PStr "hw1")].

Definition unknown_response : pyval :=
  PDict [("homeworks", PList [unknown_homework]); ("current_date", PInt 1600)].

(** A response without 'current_date'. *)
Definition undated_response : pyval :=
  PDict [("homeworks", PList [scenario_homework])].

(** TELEGRAM_TOKEN is not set; the other two variables are. *)
Definition environ_without_bot_token : environ :=
  mkEnviron (Some "practicum-token") None (Some "chat-id").

(** PRACTICUM_TOKEN is set to the empty string. *)
Definition environ_with_empty_api_token : environ :=
  mkEnviron (Some "") (Some "telegram-token") (Some "chat-id").

(** The three variables are set to the empty string. *)
Definition environ_of_empty_strings : environ :=
  mkEnviron (Some "") (Some "") (Some "").

(** PRACTICUM_TOKEN is not set. *)
Definition environ_without_api_token : environ :=
  mkEnviron None (Some "telegram-token") (Some "chat-id").

Definition network_error : pyexc := mkExc (OtherError "NetworkError") "timed out".
Definition invalid_token : pyexc := mkExc (OtherError "InvalidToken") "Invalid token".

(** A response without homeworks. *)
Definition empty_response : pyval :=
  PDict [("homeworks", PList []); ("current_date", PInt 1600)].

(** A response whose first homework is a string. *)
Definition odd_response : pyval :=
  PDict [("homeworks", PList [PStr "hw1"]); ("current_date", PInt 1600)].

(** A response whose first homework has no status. *)
Definition statusless_response : pyval :=
  PDict [("homeworks", PList [PDict [("homework_name", PStr "hw1")]]);
         ("current_date", PInt 1600)].

(** The endpoint cannot be reached. *)
Definition unreachable (b : Bot) : world :=
  mkWorld (fun _ _ _ => inl network_error) b.

(** * Properties *)

(** ** The model on small inputs *)

Example repr_of_key_errors :
  exc_str (mkKeyError "Отсутствуют ключи 'homeworks,current_date' в ответе")
  = dquote ++ "Отсутствуют ключи 'homeworks,current_date' в ответе" ++ dquote /\
  exc_str (mkKeyError ("Нет такого ключа " ++ dquote ++ "status" ++ dquote))
  = "'Нет такого ключа " ++ dquote ++ "status" ++ dquote ++ "'".
Proof. split; reflexivity. Qed.

Example str_of_values :
  py_str (PInt (-503)) = "-503" /\ py_str (PInt 0) = "0" /\ py_str PNone = "None" /\
  py_str (PBool true) = "True" /\ py_str (PStr "hw1") = "hw1" /\
  py_str (PList [PStr "a"; PInt 1]) = "['a', 1]" /\
  py_str (PDict [("k", PNone)]) = "{'k': None}".
Proof. repeat split; reflexivity. Qed.

Example equality_of_values :
  py_eq (PInt 1) (PFloat (FFin 1 0) "1.0") = true /\
  py_eq (PFloat (FFin 3 (-1)) "1.5") (PFloat (FFin 6 (-2)) "1.5") = true /\
  py_eq (PBool true) (PInt 1) = true /\
  py_eq (PFloat FNaN "nan") (PFloat FNaN "nan") = false /\
  py_eq (PStr "") PNone = false /\
  py_eq (PStr "approved") (PStr "approved") = true /\
  py_eq (PDict [("a", PInt 1); ("b", PInt 2)]) (PDict [("b", PInt 2); ("a", PInt 1)]) = true.
Proof. repeat split; reflexivity. Qed.

Example parse_status_on_other_values :
  parse_status (PInt 3)
  = Raise (mkExc TypeError "argument of type 'int' is not iterable") /\
  parse_status (PStr "status and homework_name")
  = Raise (mkExc AttributeError "'str' object has no attribute 'get'") /\
  parse_status (PList [PStr "homework_name"])
  = Raise (mkKeyError ("Нет такого ключа " ++ dquote ++ "status" ++ dquote)).
Proof. repeat split; reflexivity. Qed.

(** The scenario of a body that is not a dict: the validator raises
    [TypeError], the loop reports it and the cursor stays. *)
Example not_a_dict_is_reported :
  check_response (PStr "not a dict")
  = Raise (mkExc TypeError "Ожидается словарь, получен <class 'str'>") /\
  cycle sample_environ (answering 200 "" (inr (PStr "not a dict")) delivering)
    scenario_state
  = (Ok tt,
     mkState (PInt 1000) (PStr "")
       [request sample_environ (PInt 1000); Log INFO "Запрос к API выполнен";
        Log ERROR "Сбой в работе программы: Ожидается словарь, получен <class 'str'>";
        BotSend (Some "chat-id")
          "Сбой в работе программы: Ожидается словарь, получен <class 'str'>";
        Log DEBUG
          "Бот отправил сообщение: Сбой в работе программы: Ожидается словарь, получен <class 'str'>";
        Sleep RETRY_PERIOD]).
Proof. split; reflexivity. Qed.

(** A body that is no JSON: what [response.json()] raises reaches the
    loop as it is. *)
Example malformed_body_is_reported :
  notifications
    (trace (snd (cycle sample_environ
                   (answering 200 "<html>" (inl (mkExc ValueError "Expecting value")) delivering)
                   scenario_state)))
  = ["Сбой в работе программы: Expecting value"].
Proof. reflexivity. Qed.

(** ** Running the monad *)

Lemma bind_ok {A B : Type} (c : M A) (k : A -> M B) st a st' :
  c st = (Ok a, st') -> bind c k st = k a st'.
Proof. intros H. unfold bind. now rewrite H. Qed.

Lemma bind_raise {A B : Type} (c : M A) (k : A -> M B) st e st' :
  c st = (Raise e, st') -> bind c k st = (Raise e, st').
Proof. intros H. unfold bind. now rewrite H. Qed.

Lemma bind_exit {A B : Type} (c : M A) (k : A -> M B) st st' :
  c st = (SystemExit, st') -> bind c k st = (SystemExit, st').
Proof. intros H. unfold bind. now rewrite H. Qed.

Lemma extend_nil st : extend st [] = st.
Proof. destruct st. unfold extend. cbn. now rewrite app_nil_r. Qed.

Lemma extend_extend st evs evs' :
  extend (extend st evs) evs' = extend st (evs ++ evs')%list.
Proof. unfold extend. cbn. now rewrite app_assoc. Qed.

Lemma emit_run e st : emit e st = (Ok tt, extend st [e]).
Proof. reflexivity. Qed.

Lemma notifications_app tr tr' :
  notifications (tr ++ tr') = (notifications tr ++ notifications tr')%list.
Proof.
  induction tr as [|e tr IH]; [reflexivity|].
  destruct e; cbn [notifications app]; now rewrite IH.
Qed.

(** ** [send_message] *)

Lemma send_message_run cfg b message st :
  send_message cfg b message st
  = (Ok tt, extend st [BotSend (TELEGRAM_CHAT_ID cfg) message; delivery_log cfg b message]).
Proof.
  unfold send_message, delivery_log, try_except, bind, log, raise, lift, ret.
  rewrite emit_run.
  destruct (bot_send_message b (TELEGRAM_CHAT_ID cfg) message);
    rewrite emit_run, extend_extend; reflexivity.
Qed.

Lemma notifications_delivery_log cfg b message tr :
  notifications (delivery_log cfg b message :: tr) = notifications tr.
Proof. unfold delivery_log. now destruct (bot_send_message _ _ _). Qed.

Lemma notifications_report cfg b message tr :
  notifications (Log ERROR message :: BotSend (TELEGRAM_CHAT_ID cfg) message
                 :: delivery_log cfg b message :: tr)
  = message :: notifications tr.
Proof.
  change (notifications (Log ERROR message :: ?l)) with (notifications l).
  change (notifications (BotSend ?c message :: ?l)) with (message :: notifications l).
  now rewrite notifications_delivery_log.
Qed.

(** ** [get_api_answer] *)

Lemma get_api_answer_fault cfg w ts st error :
  requests_get w ENDPOINT (HEADERS_Authorization cfg) ts = inl error ->
  get_api_answer cfg w ts st
  = (Raise (mkExc Exception (exc_str error)), extend st [request cfg ts]).
Proof.
  intros H. unfold get_api_answer, try_except_else, bind.
  rewrite emit_run, H. reflexivity.
Qed.

Lemma get_api_answer_not_ok cfg w ts st r :
  requests_get w ENDPOINT (HEADERS_Authorization cfg) ts = inr r ->
  status_code r <> 200 ->
  let message :=
    "Эндпоинт " ++ ENDPOINT ++ " недоступен. "
    ++ "Код ответа API: " ++ str_of_Z (status_code r) ++ "."
    ++ "Ошибка: " ++ text r in
  get_api_answer cfg w ts st
  = (Raise (mkExc Exception message), extend st [request cfg ts; Log ERROR message]).
Proof.
  intros H Hcode message. unfold get_api_answer, try_except_else, bind.
  rewrite emit_run, H. cbn [call ret].
  apply Z.eqb_neq in Hcode. rewrite Hcode. cbn [negb].
  unfold log. rewrite emit_run, extend_extend. reflexivity.
Qed.

Lemma get_api_answer_ok cfg w ts st r :
  requests_get w ENDPOINT (HEADERS_Authorization cfg) ts = inr r ->
  status_code r = 200 ->
  get_api_answer cfg w ts st
  = (match json r with inr v => Ok v | inl error => Raise error end,
     extend st [request cfg ts; Log INFO "Запрос к API выполнен"]).
Proof.
  intros H Hcode. unfold get_api_answer, try_except_else, bind.
  rewrite emit_run, H. cbn [call ret]. rewrite Hcode, Z.eqb_refl. cbn [negb].
  unfold ret, log. cbv beta iota. rewrite emit_run.
  destruct (json r); cbn [call]; unfold raise, lift, ret; rewrite extend_extend; reflexivity.
Qed.

(** Whatever the endpoint answers, [get_api_answer] returns or raises,
    keeps the locals and calls no bot; what it does depends neither on the
    bot nor on the trace so far. *)
Lemma get_api_answer_uniform cfg get ts :
  exists evs,
    notifications evs = [] /\
    ((exists v, forall b st,
        get_api_answer cfg (mkWorld get b) ts st = (Ok v, extend st evs)) \/
     (exists e, forall b st,
        get_api_answer cfg (mkWorld get b) ts st = (Raise e, extend st evs))).
Proof.
  destruct (get ENDPOINT (HEADERS_Authorization cfg) ts) as [error|r] eqn:H.
  - exists [request cfg ts]. split; [reflexivity|].
    right; eexists; intros b st. apply get_api_answer_fault, H.
  - destruct (Z.eq_dec (status_code r) 200) as [Hc|Hc].
    + exists [request cfg ts; Log INFO "Запрос к API выполнен"]. split; [reflexivity|].
      destruct (json r) as [e|v] eqn:Hj; [right|left]; eexists; intros b st;
        rewrite (get_api_answer_ok cfg (mkWorld get b) ts st r H Hc), Hj; reflexivity.
    + eexists. split;
        [|right; eexists; intros b st;
          apply (get_api_answer_not_ok cfg (mkWorld get b) ts st r H Hc)].
      reflexivity.
Qed.

Lemma get_api_answer_cases cfg w ts st :
  exists evs,
    notifications evs = [] /\
    ((exists v, get_api_answer cfg w ts st = (Ok v, extend st evs)) \/
     (exists e, get_api_answer cfg w ts st = (Raise e, extend st evs))).
Proof.
  destruct w as [get b].
  destruct (get_api_answer_uniform cfg get ts) as (evs & Hn & [[v Hv]|[e He]]);
    exists evs; (split; [exact Hn|]); [left; exists v | right; exists e]; auto.
Qed.

(** ** [check_response] and [parse_status] *)

Lemma check_response_valid d homeworks current_date :
  lookup "homeworks" d = Some (PList homeworks) ->
  lookup "current_date" d = Some current_date ->
  check_response (PDict d) = Ok homeworks.
Proof.
  intros Hh Hc. unfold check_response, has_key. now rewrite Hh, Hc.
Qed.

Lemma check_response_ok_inv response homeworks :
  check_response response = Ok homeworks ->
  exists d current_date,
    response = PDict d /\
    lookup "homeworks" d = Some (PList homeworks) /\
    lookup "current_date" d = Some current_date.
Proof.
  destruct response as [| | | | | |d]; try discriminate.
  unfold check_response, has_key.
  destruct (lookup "homeworks" d) as [v|] eqn:Hh; [|discriminate].
  destruct (lookup "current_date" d) as [c|] eqn:Hc; [|discriminate].
  cbn [negb orb]. destruct v; try discriminate.
  intros [= <-]. now exists d, c.
Qed.

Lemma verdict_keys_spec status :
  In status verdict_keys <->
  status = PStr "approved" \/ status = PStr "reviewing" \/ status = PStr "rejected".
Proof.
  unfold verdict_keys. cbn. intuition congruence.
Qed.

Lemma has_key_verdicts s :
  has_key s HOMEWORK_VERDICTS = true <-> In (PStr s) verdict_keys.
Proof.
  rewrite verdict_keys_spec. unfold has_key, HOMEWORK_VERDICTS. cbn [lookup].
  destruct (String.eqb_spec s "approved") as [->|H1]; [intuition|].
  destruct (String.eqb_spec s "reviewing") as [->|H2]; [intuition|].
  destruct (String.eqb_spec s "rejected") as [->|H3]; [intuition|].
  split; [discriminate|]. intros [H|[H|H]]; congruence.
Qed.

Lemma in_HOMEWORK_VERDICTS_true status :
  in_HOMEWORK_VERDICTS status = Ok true <-> In status verdict_keys.
Proof.
  split.
  - destruct status; cbn; try discriminate. intros [= H].
    now apply has_key_verdicts.
  - intros H. pose proof H as H'. apply verdict_keys_spec in H'.
    destruct H' as [-> | [-> | ->]]; reflexivity.
Qed.

Lemma in_HOMEWORK_VERDICTS_false status :
  hashable status = true -> ~ In status verdict_keys ->
  in_HOMEWORK_VERDICTS status = Ok false.
Proof.
  intros Hh Hout. destruct status; try discriminate; try reflexivity.
  cbn. destruct (has_key s HOMEWORK_VERDICTS) eqn:E; [|reflexivity].
  apply has_key_verdicts in E. contradiction.
Qed.

Lemma lookup_has_key {A : Type} k (d : list (string * A)) v :
  lookup k d = Some v -> has_key k d = true.
Proof. intros H. unfold has_key. now rewrite H. Qed.

(** [parse_status] on a dict, once the two keys are known to be there. *)
Lemma parse_status_dict h status homework_name :
  lookup "status" h = Some status ->
  lookup "homework_name" h = Some homework_name ->
  parse_status (PDict h)
  = let! known := in_HOMEWORK_VERDICTS status in
    if negb known then
      Raise (mkExc Exception ("Неожиданный статус - " ++ py_str status))
    else
      Ok ("Изменился статус проверки работы " ++ dquote ++ py_str homework_name ++ dquote
          ++ ". " ++ py_str (HOMEWORK_VERDICTS_get status)).
Proof.
  intros Hs Hn. unfold parse_status, py_in, py_get, has_key.
  rewrite Hs, Hn. reflexivity.
Qed.

(** The parser succeeds only on a dict that carries a known status. *)
Lemma parse_status_ok_inv homework message :
  parse_status homework = Ok message ->
  exists new_status,
    py_get homework "status" = Ok new_status /\ In new_status verdict_keys.
Proof.
  destruct homework as [| | | | | |h];
    try (unfold parse_status, py_in; cbn; discriminate).
  - unfold parse_status, py_in, py_get, obind.
    destruct (is_substring "status" s); discriminate.
  - unfold parse_status, py_in, py_get, obind.
    destruct (existsb _ l); discriminate.
  - unfold parse_status, py_in, py_get, has_key, obind.
    destruct (lookup "status" h) as [status|] eqn:Hs; [|discriminate].
    destruct (lookup "homework_name" h) as [name|] eqn:Hn; [|discriminate].
    cbn [negb]. destruct (in_HOMEWORK_VERDICTS status) as [[|]| |] eqn:Hk; try discriminate.
    intros _. exists status. split; [reflexivity|].
    now apply in_HOMEWORK_VERDICTS_true.
Qed.

Lemma check_response_no_exit response : check_response response <> SystemExit.
Proof.
  destruct response as [| | | | | |d]; try discriminate.
  unfold check_response.
  destruct (negb (has_key "homeworks" d) || negb (has_key "current_date" d));
    [discriminate|].
  destruct (lookup "homeworks" d) as [[]|]; discriminate.
Qed.

Lemma parse_status_no_exit homework : parse_status homework <> SystemExit.
Proof.
  unfold parse_status, py_in, py_get, obind.
  destruct homework as [| | | | s | l | h]; try discriminate.
  - destruct (is_substring "status" s); discriminate.
  - destruct (existsb _ l); discriminate.
  - destruct (has_key "status" h); [|discriminate].
    destruct (has_key "homework_name" h); [|discriminate].
    cbn [negb].
    destruct (lookup "status" h) as [[]|]; cbn [in_HOMEWORK_VERDICTS negb];
      try discriminate;
      destruct (has_key _ HOMEWORK_VERDICTS); discriminate.
Qed.

(** ** One run of [poll] *)

Ltac run_poll :=
  unfold poll, bind, lift, get_timestamp, get_old_status, set_old_status,
    set_timestamp, ret;
  cbv beta iota.

Lemma get_api_answer_locals cfg w ts st r st1 :
  get_api_answer cfg w ts st = (r, st1) ->
  exists evs, st1 = extend st evs /\ notifications evs = [].
Proof.
  intros H. destruct (get_api_answer_cases cfg w ts st) as (evs & Hn & [[v Hv]|[e He]]).
  - rewrite Hv in H. injection H as _ <-. now exists evs.
  - rewrite He in H. injection H as _ <-. now exists evs.
Qed.

Lemma poll_api_raise cfg w st error st1 :
  get_api_answer cfg w (timestamp st) st = (Raise error, st1) ->
  poll cfg w st = (Raise error, st1).
Proof. intros H. run_poll. now rewrite H. Qed.

Lemma poll_validator_raise cfg w st response st1 error :
  get_api_answer cfg w (timestamp st) st = (Ok response, st1) ->
  check_response response = Raise error ->
  poll cfg w st = (Raise error, st1).
Proof. intros H Hc. run_poll. now rewrite H, Hc. Qed.

Lemma poll_get_raise cfg w st response st1 first rest error :
  get_api_answer cfg w (timestamp st) st = (Ok response, st1) ->
  check_response response = Ok (first :: rest) ->
  py_get first "status" = Raise error ->
  poll cfg w st = (Raise error, st1).
Proof. intros H Hc Hg. run_poll. now rewrite H, Hc, Hg. Qed.

Lemma poll_parser_raise cfg w st response st1 first rest new_status error :
  get_api_answer cfg w (timestamp st) st = (Ok response, st1) ->
  check_response response = Ok (first :: rest) ->
  py_get first "status" = Ok new_status ->
  py_ne new_status (old_status st1) = true ->
  parse_status first = Raise error ->
  poll cfg w st = (Raise error, st1).
Proof. intros H Hc Hg Hne Hp. run_poll. now rewrite H, Hc, Hg, Hne, Hp. Qed.

Lemma poll_no_homeworks cfg w st d current_date st1 :
  get_api_answer cfg w (timestamp st) st = (Ok (PDict d), st1) ->
  lookup "homeworks" d = Some (PList []) ->
  lookup "current_date" d = Some current_date ->
  poll cfg w st = (Ok tt, mkState current_date (old_status st1) (trace st1)).
Proof.
  intros H Hh Hd. run_poll.
  rewrite H, (check_response_valid _ _ _ Hh Hd). unfold py_get. now rewrite Hd.
Qed.

Lemma poll_same_status cfg w st d current_date st1 first rest new_status :
  get_api_answer cfg w (timestamp st) st = (Ok (PDict d), st1) ->
  lookup "homeworks" d = Some (PList (first :: rest)) ->
  lookup "current_date" d = Some current_date ->
  py_get first "status" = Ok new_status ->
  py_ne new_status (old_status st1) = false ->
  poll cfg w st
  = (Ok tt, mkState current_date (old_status st1)
              (trace st1 ++ [Log DEBUG "Нет новых статусов"])%list).
Proof.
  intros H Hh Hd Hg Hne. run_poll.
  rewrite H, (check_response_valid _ _ _ Hh Hd), Hg, Hne.
  unfold log. rewrite emit_run. unfold py_get. now rewrite Hd.
Qed.

Lemma poll_new_status cfg w st d current_date st1 first rest new_status message :
  get_api_answer cfg w (timestamp st) st = (Ok (PDict d), st1) ->
  lookup "homeworks" d = Some (PList (first :: rest)) ->
  lookup "current_date" d = Some current_date ->
  py_get first "status" = Ok new_status ->
  py_ne new_status (old_status st1) = true ->
  parse_status first = Ok message ->
  poll cfg w st
  = (Ok tt, mkState current_date new_status
              (trace st1 ++ [BotSend (TELEGRAM_CHAT_ID cfg) message;
                             delivery_log cfg (bot w) message])%list).
Proof.
  intros H Hh Hd Hg Hne Hp. run_poll.
  rewrite H, (check_response_valid _ _ _ Hh Hd), Hg, Hne, Hp.
  rewrite send_message_run. unfold py_get. now rewrite Hd.
Qed.

(** Every run of [poll] is one of the three behaviours. *)
Lemma poll_spec cfg get ts old : poll_behaviour cfg get ts old.
Proof.
  destruct (get_api_answer_uniform cfg get ts) as (evs & Hn & [[v Hv]|[e He]]).
  2:{ apply poll_fails with (error := e) (evs := evs); [exact Hn|].
      intros b tr. apply (poll_api_raise cfg (mkWorld get b) (mkState ts old tr)). apply He. }
  destruct (check_response v) as [homeworks|e|] eqn:Hc.
  - destruct (check_response_ok_inv _ _ Hc) as (d & cd & -> & Hh & Hd).
    destruct homeworks as [|first rest].
    + apply poll_quiet with (current_date := cd) (evs := evs); [exact Hn|].
      intros b tr.
      now rewrite (poll_no_homeworks cfg (mkWorld get b) (mkState ts old tr) _ _ _ (Hv b (mkState ts old tr)) Hh Hd).
    + destruct (py_get first "status") as [new_status|e|] eqn:Hg.
      * destruct (py_ne new_status old) eqn:Hne.
        -- destruct (parse_status first) as [message|e|] eqn:Hp.
           ++ apply poll_notifies with (current_date := cd) (first := first)
                (new_status := new_status) (message := message) (evs := evs);
                try assumption.
              intros b tr.
              rewrite (poll_new_status cfg (mkWorld get b) (mkState ts old tr) _ _ _ _ _ _ _
                         (Hv b (mkState ts old tr)) Hh Hd Hg Hne Hp).
              cbn [extend trace old_status]. now rewrite <- app_assoc.
           ++ apply poll_fails with (error := e) (evs := evs); [exact Hn|].
              intros b tr.
              now rewrite (poll_parser_raise cfg (mkWorld get b) (mkState ts old tr) _ _ _ _ _ _
                             (Hv b (mkState ts old tr)) Hc Hg Hne Hp).
           ++ now apply parse_status_no_exit in Hp.
        -- apply poll_quiet with (current_date := cd)
             (evs := (evs ++ [Log DEBUG "Нет новых статусов"])%list).
           { rewrite notifications_app, Hn. reflexivity. }
           intros b tr.
           rewrite (poll_same_status cfg (mkWorld get b) (mkState ts old tr) _ _ _ _ _ _
                      (Hv b (mkState ts old tr)) Hh Hd Hg Hne).
           cbn [extend trace old_status]. now rewrite <- app_assoc.
      * apply poll_fails with (error := e) (evs := evs); [exact Hn|].
        intros b tr.
        now rewrite (poll_get_raise cfg (mkWorld get b) (mkState ts old tr) _ _ _ _ _ (Hv b (mkState ts old tr)) Hc Hg).
      * destruct first; discriminate.
  - apply poll_fails with (error := e) (evs := evs); [exact Hn|].
    intros b tr.
    now rewrite (poll_validator_raise cfg (mkWorld get b) (mkState ts old tr) _ _ _ (Hv b (mkState ts old tr)) Hc).
  - now apply check_response_no_exit in Hc.
Qed.

(** ** One iteration of the loop *)

Lemma cycle_ok cfg w st st1 :
  poll cfg w st = (Ok tt, st1) ->
  cycle cfg w st = (Ok tt, extend st1 [Sleep RETRY_PERIOD]).
Proof.
  intros H. unfold cycle, bind, try_except, sleep. rewrite H. apply emit_run.
Qed.

Lemma cycle_raise cfg w st error st1 :
  poll cfg w st = (Raise error, st1) ->
  cycle cfg w st
  = (Ok tt, extend st1 [Log ERROR (failure_report error);
                        BotSend (TELEGRAM_CHAT_ID cfg) (failure_report error);
                        delivery_log cfg (bot w) (failure_report error);
                        Sleep RETRY_PERIOD]).
Proof.
  intros H. unfold cycle, bind, try_except, sleep, log. rewrite H.
  fold (failure_report error).
  rewrite emit_run, send_message_run, emit_run, !extend_extend. reflexivity.
Qed.

(** A failing stage makes [poll] raise its error before any local is
    assigned and before the bot is called. *)
Lemma stage_failure_poll cfg w st error :
  stage_failure cfg w st error ->
  exists evs,
    poll cfg w st = (Raise error, extend st evs) /\ notifications evs = [].
Proof.
  intros [st1 H | response st1 H Hc | response st1 first rest new_status H Hc Hg Hne Hp];
    destruct (get_api_answer_locals _ _ _ _ _ _ H) as (evs & -> & Hn);
    exists evs; (split; [|exact Hn]).
  - now apply poll_api_raise.
  - now apply poll_validator_raise with (response := response).
  - now apply poll_parser_raise with (response := response) (first := first)
      (rest := rest) (new_status := new_status).
Qed.

(** C3. Whenever the API client, the response validator or the status
    parser fails in a cycle, the loop logs and sends through the notifier
    exactly the text "Сбой в работе программы: <error>", and both the
    cursor and Last Status keep their values from before the cycle.  In
    particular a response that lacks 'homeworks' or 'current_date' is
    reported so, with the [KeyError] of the validator. *)
Theorem failure_reported_cursor_kept (cfg : environ) (w : world) (st : state) :
  (forall error,
     stage_failure cfg w st error ->
     exists evs,
       cycle cfg w st
       = (Ok tt, mkState (timestamp st) (old_status st) (trace st ++ evs)%list) /\
       notifications evs = [failure_report error] /\
       In (Log ERROR (failure_report error)) evs) /\
  (forall d st1,
     get_api_answer cfg w (timestamp st) st = (Ok (PDict d), st1) ->
     has_key "homeworks" d = false \/ has_key "current_date" d = false ->
     exists evs,
       cycle cfg w st
       = (Ok tt, mkState (timestamp st) (old_status st) (trace st ++ evs)%list) /\
       notifications evs
       = [failure_report
            (mkKeyError "Отсутствуют ключи 'homeworks,current_date' в ответе")]).
Proof.
  assert (Hreport : forall error,
     stage_failure cfg w st error ->
     exists evs,
       cycle cfg w st
       = (Ok tt, mkState (timestamp st) (old_status st) (trace st ++ evs)%list) /\
       notifications evs = [failure_report error] /\
       In (Log ERROR (failure_report error)) evs).
  { intros error Hfail.
    destruct (stage_failure_poll _ _ _ _ Hfail) as (evs & Hpoll & Hn).
    rewrite (cycle_raise _ _ _ _ _ Hpoll), extend_extend.
    eexists. split; [reflexivity|]. split.
    - now rewrite notifications_app, Hn, notifications_report.
    - apply in_or_app. right. now left. }
  split; [exact Hreport|].
  intros d st1 H Hmiss.
  destruct (Hreport (mkKeyError "Отсутствуют ключи 'homeworks,current_date' в ответе"))
    as (evs & Hc & Hn & _).
  - apply validator_fails with (response := PDict d) (st1 := st1); [exact H|].
    unfold check_response. destruct Hmiss as [-> | ->]; [reflexivity|].
    now rewrite orb_true_r.
  - now exists evs.
Qed.

(** C5. The validator fails with "Ответ не получен" on [None]; with a
    [TypeError] on any other value that is not a dict; with a [KeyError]
    when 'homeworks' or 'current_date' is missing, whatever the other key
    holds; with a [TypeError] when both keys are there and 'homeworks' is
    not a list; and returns the 'homeworks' list, empty or not, otherwise. *)
Theorem check_response_contract :
  check_response PNone = Raise (mkExc Exception "Ответ не получен") /\
  (forall response,
     response <> PNone -> (forall d, response <> PDict d) ->
     check_response response
     = Raise (mkExc TypeError ("Ожидается словарь, получен " ++ str_of_type response))) /\
  (forall d,
     has_key "homeworks" d = false \/ has_key "current_date" d = false ->
     check_response (PDict d)
     = Raise (mkKeyError "Отсутствуют ключи 'homeworks,current_date' в ответе")) /\
  (forall d other,
     lookup "homeworks" d = Some other -> has_key "current_date" d = true ->
     (forall homeworks, other <> PList homeworks) ->
     check_response (PDict d)
     = Raise (mkExc TypeError ("Ожидается список, получен " ++ str_of_type other))) /\
  (forall d homeworks,
     lookup "homeworks" d = Some (PList homeworks) -> has_key "current_date" d = true ->
     check_response (PDict d) = Ok homeworks).
Proof.
  split; [reflexivity|]. split; [|split; [|split]].
  - intros response Hnone Hdict.
    destruct response; try reflexivity; [contradiction | now destruct (Hdict d)].
  - intros d [H | H]; unfold check_response; rewrite H; [reflexivity|].
    now rewrite orb_true_r.
  - intros d other Hh Hc Hlist. unfold check_response.
    rewrite (lookup_has_key _ _ _ Hh), Hc, Hh. cbn [negb orb].
    destruct other; try reflexivity. now destruct (Hlist l).
  - intros d homeworks Hh Hc. unfold check_response.
    now rewrite (lookup_has_key _ _ _ Hh), Hc, Hh.
Qed.

(** C8. When the endpoint answers with a status code other than 200, the
    API client raises an error whose text holds the code in decimal and
    the body of the response; the loop reports it through the notifier,
    and the cursor and Last Status stay as they were. *)
Theorem non_200_reported_cursor_kept (cfg : environ) (w : world) (st : state)
    (r : Response) :
  requests_get w ENDPOINT (HEADERS_Authorization cfg) (timestamp st) = inr r ->
  status_code r <> 200 ->
  let message :=
    "Эндпоинт " ++ ENDPOINT ++ " недоступен. "
    ++ "Код ответа API: " ++ str_of_Z (status_code r) ++ "."
    ++ "Ошибка: " ++ text r in
  let error := mkExc Exception message in
  get_api_answer cfg w (timestamp st) st
  = (Raise error, extend st [request cfg (timestamp st); Log ERROR message]) /\
  cycle cfg w st
  = (Ok tt,
     mkState (timestamp st) (old_status st)
       (trace st ++ [request cfg (timestamp st); Log ERROR message;
                     Log ERROR (failure_report error);
                     BotSend (TELEGRAM_CHAT_ID cfg) (failure_report error);
                     delivery_log cfg (bot w) (failure_report error);
                     Sleep RETRY_PERIOD])%list).
Proof.
  intros H Hcode message error.
  pose proof (get_api_answer_not_ok cfg w (timestamp st) st r H Hcode) as Hapi.
  split; [exact Hapi|].
  rewrite (cycle_raise _ _ _ _ _ (poll_api_raise _ _ _ _ _ Hapi)), extend_extend.
  reflexivity.
Qed.

(** One iteration ends normally, and its cursor and Last Status depend
    on the locals it started from and on the endpoint only. *)
Lemma cycle_locals cfg w w' st st' :
  same_requests w w' -> locals st = locals st' ->
  fst (cycle cfg w st) = Ok tt /\
  locals (snd (cycle cfg w st)) = locals (snd (cycle cfg w' st')).
Proof.
  destruct w as [get b], w' as [get' b'], st as [ts old tr], st' as [ts' old' tr'].
  unfold same_requests, locals. cbn [requests_get timestamp old_status].
  intros <- [= <- <-].
  destruct (poll_spec cfg get ts old)
    as [e evs _ Hp | cd evs _ Hp | cd first new message evs _ _ _ Hp].
  - rewrite (cycle_raise _ _ _ _ _ (Hp b tr)), (cycle_raise _ _ _ _ _ (Hp b' tr')).
    split; reflexivity.
  - rewrite (cycle_ok _ _ _ _ (Hp b tr)), (cycle_ok _ _ _ _ (Hp b' tr')).
    split; reflexivity.
  - rewrite (cycle_ok _ _ _ _ (Hp b tr)), (cycle_ok _ _ _ _ (Hp b' tr')).
    split; reflexivity.
Qed.

Lemma poll_loop_locals cfg ws ws' :
  Forall2 same_requests ws ws' ->
  forall st st',
    locals st = locals st' ->
    fst (poll_loop cfg ws st) = Ok tt /\
    locals (snd (poll_loop cfg ws st)) = locals (snd (poll_loop cfg ws' st')).
Proof.
  induction 1 as [|w w' ws ws' Hw _ IH]; intros st st' Hst.
  - split; [reflexivity|exact Hst].
  - destruct (cycle_locals cfg w w' st st' Hw Hst) as [Hok Hloc].
    destruct (cycle_locals cfg w' w' st' st' eq_refl eq_refl) as [Hok' _].
    cbn [poll_loop]. unfold bind.
    destruct (cycle cfg w st) as [[[]| |] st1]; try discriminate.
    destruct (cycle cfg w' st') as [[[]| |] st1']; try discriminate.
    now apply IH.
Qed.

(** C9. When the bot raises on delivery, [send_message] records the
    failure as an error in the log and returns normally, leaving the
    cursor and Last Status alone.  And the loop goes on whatever the bots
    do: a run of any number of iterations ends each of them normally, and
    its cursor and Last Status are those of the run in which the endpoint
    answers the same and the bots behave in any other way. *)
Theorem delivery_failure_swallowed (cfg : environ) (w : world) (message : string)
    (error : pyexc) (st : state) :
  bot_send_message (bot w) (TELEGRAM_CHAT_ID cfg) message = Some error ->
  send_message cfg (bot w) message st
  = (Ok tt,
     mkState (timestamp st) (old_status st)
       (trace st ++ [BotSend (TELEGRAM_CHAT_ID cfg) message;
                     Log ERROR ("Сбой в отправке сообщения с ошибкой " ++ exc_str error)])%list)
  /\
  forall ws ws',
    Forall2 same_requests ws ws' ->
    fst (poll_loop cfg ws st) = Ok tt /\
    locals (snd (poll_loop cfg ws st)) = locals (snd (poll_loop cfg ws' st)).
Proof.
  intros H. split.
  - rewrite send_message_run. unfold delivery_log. now rewrite H.
  - intros ws ws' Hws. now apply poll_loop_locals.
Qed.

(** ** Successful cycles *)

Lemma cycle_new_status cfg w st r d first rest current_date new_status message :
  requests_get w ENDPOINT (HEADERS_Authorization cfg) (timestamp st) = inr r ->
  status_code r = 200 ->
  json r = inr (PDict d) ->
  lookup "homeworks" d = Some (PList (first :: rest)) ->
  lookup "current_date" d = Some current_date ->
  py_get first "status" = Ok new_status ->
  py_ne new_status (old_status st) = true ->
  parse_status first = Ok message ->
  cycle cfg w st
  = (Ok tt,
     mkState current_date new_status
       (trace st ++ [request cfg (timestamp st); Log INFO "Запрос к API выполнен";
                     BotSend (TELEGRAM_CHAT_ID cfg) message;
                     delivery_log cfg (bot w) message;
                     Sleep RETRY_PERIOD])%list).
Proof.
  intros H Hcode Hjson Hh Hd Hg Hne Hp.
  pose proof (get_api_answer_ok cfg w (timestamp st) st r H Hcode) as Hapi.
  rewrite Hjson in Hapi.
  rewrite (cycle_ok _ _ _ _ (poll_new_status _ _ _ _ _ _ _ _ _ _ Hapi Hh Hd Hg Hne Hp)).
  unfold extend. cbn [trace timestamp old_status]. now rewrite <- !app_assoc.
Qed.


Lemma cycle_no_homeworks cfg w st r d current_date :
  requests_get w ENDPOINT (HEADERS_Authorization cfg) (timestamp st) = inr r ->
  status_code r = 200 ->
  json r = inr (PDict d) ->
  lookup "homeworks" d = Some (PList []) ->
  lookup "current_date" d = Some current_date ->
  cycle cfg w st
  = (Ok tt,
     mkState current_date (old_status st)
       (trace st ++ [request cfg (timestamp st); Log INFO "Запрос к API выполнен";
                     Sleep RETRY_PERIOD])%list).
Proof.
  intros H Hcode Hjson Hh Hd.
  pose proof (get_api_answer_ok cfg w (timestamp st) st r H Hcode) as Hapi.
  rewrite Hjson in Hapi.
  rewrite (cycle_ok _ _ _ _ (poll_no_homeworks _ _ _ _ _ _ Hapi Hh Hd)).
  unfold extend. cbn [trace timestamp old_status]. now rewrite <- !app_assoc.
Qed.

Lemma parse_status_known h status homework_name :
  lookup "status" h = Some status ->
  lookup "homework_name" h = Some homework_name ->
  In status verdict_keys ->
  parse_status (PDict h)
  = Ok ("Изменился статус проверки работы " ++ dquote ++ py_str homework_name ++ dquote
        ++ ". " ++ py_str (HOMEWORK_VERDICTS_get status)).
Proof.
  intros Hs Hn Hin. rewrite (parse_status_dict _ _ _ Hs Hn).
  apply in_HOMEWORK_VERDICTS_true in Hin. now rewrite Hin.
Qed.

(** C1, amended.  For a response with 'current_date' and a non-empty
    'homeworks' list whose first homework is a dict with a
    'homework_name' and a 'status' that is a key of the verdict table and
    differs from Last Status, one iteration calls the bot exactly once,
    with the message of the status parser, and leaves Last Status equal
    to the new status and the cursor equal to 'current_date'.  Last Status
    still has its old value when [send_message] returns, and the result
    is the same whether the delivery succeeded or failed. *)
Theorem status_change_notified_once (cfg : environ) (w : world) (st : state)
    (r : Response) (d h : list (string * pyval)) (rest : list pyval)
    (status homework_name current_date : pyval) :
  requests_get w ENDPOINT (HEADERS_Authorization cfg) (timestamp st) = inr r ->
  status_code r = 200 ->
  json r = inr (PDict d) ->
  lookup "homeworks" d = Some (PList (PDict h :: rest)) ->
  lookup "current_date" d = Some current_date ->
  lookup "status" h = Some status ->
  lookup "homework_name" h = Some homework_name ->
  In status verdict_keys ->
  py_ne status (old_status st) = true ->
  exists message,
    parse_status (PDict h) = Ok message /\
    let st1 := extend st [request cfg (timestamp st); Log INFO "Запрос к API выполнен"] in
    let st2 := extend st1 [BotSend (TELEGRAM_CHAT_ID cfg) message;
                           delivery_log cfg (bot w) message] in
    send_message cfg (bot w) message st1 = (Ok tt, st2) /\
    old_status st2 = old_status st /\
    cycle cfg w st
    = (Ok tt, mkState current_date status (trace st2 ++ [Sleep RETRY_PERIOD])%list) /\
    notifications (trace (snd (cycle cfg w st)))
    = (notifications (trace st) ++ [message])%list.
Proof.
  intros H Hcode Hjson Hh Hd Hs Hn Hin Hne.
  pose proof (parse_status_known _ _ _ Hs Hn Hin) as Hp.
  eexists. split; [exact Hp|]. cbv zeta.
  assert (Hg : py_get (PDict h) "status" = Ok status) by (cbn; now rewrite Hs).
  pose proof (cycle_new_status _ _ _ _ _ _ _ _ _ _ H Hcode Hjson Hh Hd Hg Hne Hp) as Hc.
  split; [apply send_message_run|]. split; [reflexivity|]. split.
  - rewrite Hc. cbn [extend trace]. now rewrite <- !app_assoc.
  - rewrite Hc. cbn [snd trace]. rewrite notifications_app.
    change (notifications (?a :: ?b :: ?c :: ?e)) with (notifications (c :: e)).
    change (notifications (BotSend ?c ?m :: ?e)) with (m :: notifications e).
    now rewrite notifications_delivery_log.
Qed.


(** C7. For a dict with both keys whose status is a key of the verdict
    table, the parser returns "Изменился статус проверки работы", the
    name between double quotes, a full stop, a space and the verdict of
    the table for that status.  For the homework "hw1" under review this
    is the message of the scenario, and the iteration that receives it
    with cursor 1000 and an empty Last Status ends with cursor 1600 and
    Last Status "reviewing", having sent that message. *)
Theorem parse_status_message :
  (forall h status homework_name verdict,
     lookup "status" h = Some (PStr status) ->
     lookup "homework_name" h = Some homework_name ->
     lookup status HOMEWORK_VERDICTS = Some verdict ->
     parse_status (PDict h)
     = Ok ("Изменился статус проверки работы " ++ dquote ++ py_str homework_name
           ++ dquote ++ ". " ++ verdict)) /\
  parse_status scenario_homework = Ok scenario_message /\
  (forall cfg w r tr,
     requests_get w ENDPOINT (HEADERS_Authorization cfg) (PInt 1000) = inr r ->
     status_code r = 200 ->
     json r = inr scenario_response ->
     cycle cfg w (mkState (PInt 1000) (PStr "") tr)
     = (Ok tt,
        mkState (PInt 1600) (PStr "reviewing")
          (tr ++ [request cfg (PInt 1000); Log INFO "Запрос к API выполнен";
                  BotSend (TELEGRAM_CHAT_ID cfg) scenario_message;
                  delivery_log cfg (bot w) scenario_message;
                  Sleep RETRY_PERIOD])%list)).
Proof.
  split; [|split].
  - intros h status name verdict Hs Hn Hv.
    rewrite (parse_status_dict _ _ _ Hs Hn).
    unfold in_HOMEWORK_VERDICTS, HOMEWORK_VERDICTS_get, has_key, obind.
    now rewrite Hv.
  - reflexivity.
  - intros cfg w r tr H Hcode Hjson.
    apply (cycle_new_status cfg w (mkState (PInt 1000) (PStr "") tr) r
             [("homeworks", PList [scenario_homework]); ("current_date", PInt 1600)]
             scenario_homework [] (PInt 1600) (PStr "reviewing") scenario_message);
      try reflexivity; assumption.
Qed.

(** C6, amended.  For a dict with both keys whose status is no key of the
    verdict table: if the status is hashable (a string, a number, a
    boolean or None) the parser raises "Неожиданный статус - " followed
    by the status; if it is a list or a dict the parser raises the
    [TypeError] of the failed hashing instead.  Either way, when the loop
    has called the parser (the status differs from Last Status), it
    reports the error through the notifier and keeps the cursor and Last
    Status. *)
Theorem unknown_status_reported :
  (forall h status homework_name,
     lookup "status" h = Some status ->
     lookup "homework_name" h = Some homework_name ->
     ~ In status verdict_keys ->
     parse_status (PDict h)
     = Raise (if hashable status
              then mkExc Exception ("Неожиданный статус - " ++ py_str status)
              else mkExc TypeError ("unhashable type: '" ++ type_name status ++ "'"))) /\
  (forall cfg w st r d h rest status homework_name current_date,
     requests_get w ENDPOINT (HEADERS_Authorization cfg) (timestamp st) = inr r ->
     status_code r = 200 ->
     json r = inr (PDict d) ->
     lookup "homeworks" d = Some (PList (PDict h :: rest)) ->
     lookup "current_date" d = Some current_date ->
     lookup "status" h = Some status ->
     lookup "homework_name" h = Some homework_name ->
     ~ In status verdict_keys ->
     py_ne status (old_status st) = true ->
     exists error evs,
       parse_status (PDict h) = Raise error /\
       cycle cfg w st
       = (Ok tt, mkState (timestamp st) (old_status st) (trace st ++ evs)%list) /\
       notifications evs = [failure_report error]).
Proof.
  assert (Hparse : forall h status homework_name,
     lookup "status" h = Some status ->
     lookup "homework_name" h = Some homework_name ->
     ~ In status verdict_keys ->
     parse_status (PDict h)
     = Raise (if hashable status
              then mkExc Exception ("Неожиданный статус - " ++ py_str status)
              else mkExc TypeError ("unhashable type: '" ++ type_name status ++ "'"))).
  { intros h status name Hs Hn Hout. rewrite (parse_status_dict _ _ _ Hs Hn).
    destruct (hashable status) eqn:Hh.
    - now rewrite (in_HOMEWORK_VERDICTS_false _ Hh Hout).
    - destruct status; try discriminate; reflexivity. }
  split; [exact Hparse|].
  intros cfg w st r d h rest status name cd H Hcode Hjson Hh Hd Hs Hn Hout Hne.
  pose proof (Hparse _ _ _ Hs Hn Hout) as Hp.
  pose proof (get_api_answer_ok cfg w (timestamp st) st r H Hcode) as Hapi.
  rewrite Hjson in Hapi.
  assert (Hg : py_get (PDict h) "status" = Ok status) by (cbn; now rewrite Hs).
  pose proof (poll_parser_raise _ _ _ _ _ _ _ _ _ Hapi
                (check_response_valid _ _ _ Hh Hd) Hg Hne Hp) as Hpoll.
  eexists. eexists. split; [exact Hp|].
  rewrite (cycle_raise _ _ _ _ _ Hpoll), extend_extend. split; [reflexivity|].
  rewrite notifications_app. now rewrite notifications_report.
Qed.

(** ** Startup *)

Lemma check_tokens_chat_absent cfg st :
  TELEGRAM_CHAT_ID cfg = None ->
  check_tokens cfg st = (SystemExit, extend st [Log CRITICAL missing_variable_message]).
Proof. intros H. unfold check_tokens. now rewrite H. Qed.

Lemma check_tokens_practicum_absent cfg st :
  PRACTICUM_TOKEN cfg = None ->
  check_tokens cfg st = (SystemExit, extend st [Log CRITICAL missing_variable_message]).
Proof.
  intros H. unfold check_tokens. rewrite H.
  now destruct (TELEGRAM_CHAT_ID cfg).
Qed.

Lemma check_tokens_present cfg st p c :
  PRACTICUM_TOKEN cfg = Some p -> TELEGRAM_CHAT_ID cfg = Some c ->
  check_tokens cfg st = (Ok tt, st).
Proof. intros Hp Hc. unfold check_tokens. now rewrite Hp, Hc. Qed.

(** C2, amended.  If the API token (PRACTICUM_TOKEN) or the chat
    identifier (CHAT_ID) is not set, [check_tokens] logs at critical
    severity and exits, and [main] ends there, before any request of the
    loop.  If the three variables are set, be it to empty strings, the
    check passes and logs nothing. *)
Theorem absent_credential_stops_startup (cfg : environ) :
  (PRACTICUM_TOKEN cfg = None \/ TELEGRAM_CHAT_ID cfg = None ->
   forall st Bot_new now ws,
     check_tokens cfg st
     = (SystemExit, extend st [Log CRITICAL missing_variable_message]) /\
     main cfg Bot_new now ws start
     = (SystemExit, extend start [Log CRITICAL missing_variable_message])) /\
  (forall p t c st,
     PRACTICUM_TOKEN cfg = Some p -> TELEGRAM_TOKEN cfg = Some t ->
     TELEGRAM_CHAT_ID cfg = Some c ->
     check_tokens cfg st = (Ok tt, st)).
Proof.
  split.
  - intros Habsent st Bot_new now ws.
    assert (H : forall st', check_tokens cfg st'
                = (SystemExit, extend st' [Log CRITICAL missing_variable_message])).
    { intros st'. destruct Habsent as [H | H];
        [now apply check_tokens_practicum_absent | now apply check_tokens_chat_absent]. }
    split; [apply H|]. unfold main. now rewrite (bind_exit _ _ _ _ (H start)).
  - intros p t c st Hp _ Hc. now apply check_tokens_present with (p := p) (c := c).
Qed.

(** ** The invariant of the loop *)

Lemma cycle_invariant cfg w st :
  status_invariant st ->
  fst (cycle cfg w st) = Ok tt /\
  status_invariant (snd (poll cfg w st)) /\
  status_invariant (snd (cycle cfg w st)).
Proof.
  intros Hinv. destruct w as [get b], st as [ts old tr].
  destruct (poll_spec cfg get ts old)
    as [e evs _ Hp | cd evs _ Hp | cd f new m evs _ Hg Hm Hp].
  - rewrite (cycle_raise _ _ _ _ _ (Hp b tr)), (Hp b tr). repeat split; exact Hinv.
  - rewrite (cycle_ok _ _ _ _ (Hp b tr)), (Hp b tr). repeat split; exact Hinv.
  - rewrite (cycle_ok _ _ _ _ (Hp b tr)), (Hp b tr).
    destruct (parse_status_ok_inv _ _ Hm) as (new' & Hg' & Hin).
    rewrite Hg in Hg'. injection Hg' as <-.
    repeat split; right; exact Hin.
Qed.

Lemma poll_loop_invariant cfg ws st :
  status_invariant st ->
  fst (poll_loop cfg ws st) = Ok tt /\ status_invariant (snd (poll_loop cfg ws st)).
Proof.
  revert st. induction ws as [|w ws IH]; intros st Hinv.
  - split; [reflexivity|exact Hinv].
  - destruct (cycle_invariant cfg w st Hinv) as (Hok & _ & Hinv').
    cbn [poll_loop]. unfold bind.
    destruct (cycle cfg w st) as [[[]| |] st']; try discriminate.
    now apply IH.
Qed.

(** C10. Last Status is the empty string or a key of the verdict table
    throughout: the invariant holds when [main] enters the loop, a run of
    the [try] body and a whole iteration keep it, so it holds after any
    number of iterations; the reason is that the status parser succeeds
    only on a homework whose status is such a key. *)
Theorem last_status_invariant (cfg : environ) :
  (forall w st,
     status_invariant st ->
     status_invariant (snd (poll cfg w st)) /\ status_invariant (snd (cycle cfg w st))) /\
  (forall ws st,
     status_invariant st -> status_invariant (snd (poll_loop cfg ws st))) /\
  (forall Bot_new now ws,
     fst (main cfg Bot_new now ws start) = Ok tt ->
     status_invariant (snd (main cfg Bot_new now ws start))) /\
  (forall first message new_status,
     parse_status first = Ok message ->
     py_get first "status" = Ok new_status ->
     In new_status verdict_keys).
Proof.
  split; [|split; [|split]].
  - intros w st Hinv. now destruct (cycle_invariant cfg w st Hinv) as (_ & H1 & H2).
  - intros ws st Hinv. now apply poll_loop_invariant.
  - intros Bot_new now ws. unfold main, bind.
    destruct (check_tokens cfg start) as [[[]| |] st0] eqn:Hc; try discriminate.
    destruct (Bot_new (TELEGRAM_TOKEN cfg)); [discriminate|].
    cbn [ret raise lift set_timestamp set_old_status].
    intros _. apply poll_loop_invariant. now left.
  - intros first message new_status Hm Hg.
    destruct (parse_status_ok_inv _ _ Hm) as (new' & Hg' & Hin).
    rewrite Hg in Hg'. now injection Hg' as <-.
Qed.

(** * Concrete runs *)

(** C1, as stated, fails: the response is valid, its first homework has
    the status "approved", a key of the table that differs from the empty
    Last Status, but the homework has no 'homework_name'.  The parser
    raises, the only notification is the failure report, and Last Status
    stays empty. *)
Lemma nameless_homework_not_notified :
  check_response nameless_response = Ok [nameless_homework] /\
  py_get nameless_homework "status" = Ok (PStr "approved") /\
  In (PStr "approved") verdict_keys /\
  py_ne (PStr "approved") (old_status scenario_state) = true /\
  parse_status nameless_homework
  = Raise (mkKeyError ("Нет такого ключа " ++ dquote ++ "homework_name" ++ dquote)) /\
  notifications
    (trace (snd (cycle sample_environ
                   (answering 200 "" (inr nameless_response) delivering)
                   scenario_state)))
  = ["Сбой в работе программы: 'Нет такого ключа " ++ dquote ++ "homework_name"
     ++ dquote ++ "'"] /\
  old_status (snd (cycle sample_environ
                     (answering 200 "" (inr nameless_response) delivering)
                     scenario_state))
  = PStr "" /\
  old_status (snd (cycle sample_environ
                     (answering 200 "" (inr nameless_response) delivering)
                     scenario_state))
  <> PStr "approved".
Proof.
  repeat split; try reflexivity.
  - left. reflexivity.
  - discriminate.
Qed.

(** The scenario with a bot that fails to deliver: one message, Last
    Status 'reviewing', cursor 1600. *)
Lemma status_change_notified_once_witness :
  exists message,
    parse_status scenario_homework = Ok message /\
    cycle sample_environ
      (answering 200 "" (inr scenario_response) (failing network_error)) scenario_state
    = (Ok tt,
       mkState (PInt 1600) (PStr "reviewing")
         [request sample_environ (PInt 1000); Log INFO "Запрос к API выполнен";
          BotSend (Some "chat-id") message;
          Log ERROR "Сбой в отправке сообщения с ошибкой timed out";
          Sleep RETRY_PERIOD]) /\
    notifications
      (trace (snd (cycle sample_environ
                     (answering 200 "" (inr scenario_response) (failing network_error))
                     scenario_state)))
    = [message].
Proof.
  destruct (status_change_notified_once sample_environ
              (answering 200 "" (inr scenario_response) (failing network_error))
              scenario_state
              (mkResponse 200 "" (inr scenario_response))
              [("homeworks", PList [scenario_homework]); ("current_date", PInt 1600)]
              [("status", PStr "reviewing"); ("homework_name", PStr "hw1")]
              [] (PStr "reviewing") (PStr "hw1") (PInt 1600))
    as (message & Hparse & _ & _ & Hcycle & Hsent);
    try reflexivity.
  - right. left. reflexivity.
  - exists message. split; [exact Hparse|]. split; [|exact Hsent].
    rewrite Hcycle. injection Hparse as <-. reflexivity.
Defined.

(** C2, as stated, fails twice.  With TELEGRAM_TOKEN not set and the two
    other variables set, [check_tokens] returns without a log; if the
    constructor of the bot then refuses the absent token, [main] ends with
    that exception and nothing is logged at critical severity.  With
    PRACTICUM_TOKEN set to the empty string, [check_tokens] returns
    without a log as well and [main] enters the loop, sending the empty
    token to the endpoint. *)
Lemma unchecked_credentials_pass :
  TELEGRAM_TOKEN environ_without_bot_token = None /\
  check_tokens environ_without_bot_token start = (Ok tt, start) /\
  main environ_without_bot_token (fun _ => Some invalid_token) 1000 [scenario_world] start
  = (Raise invalid_token, start) /\
  PRACTICUM_TOKEN environ_with_empty_api_token = Some "" /\
  check_tokens environ_with_empty_api_token start = (Ok tt, start) /\
  main environ_with_empty_api_token (fun _ => None) 1000 [scenario_world] start
  = (Ok tt,
     mkState (PInt 1600) (PStr "reviewing")
       [HttpGet ENDPOINT "OAuth " (PInt 1000); Log INFO "Запрос к API выполнен";
        BotSend (Some "chat-id") scenario_message;
        Log DEBUG ("Бот отправил сообщение: " ++ scenario_message);
        Sleep RETRY_PERIOD]).
Proof. repeat split; reflexivity. Qed.

(** Without PRACTICUM_TOKEN the process exits at the check; three empty
    strings pass it. *)
Lemma absent_credential_stops_startup_witness :
  check_tokens environ_without_api_token start
  = (SystemExit, extend start [Log CRITICAL missing_variable_message]) /\
  main environ_without_api_token (fun _ => None) 1000 [scenario_world] start
  = (SystemExit, extend start [Log CRITICAL missing_variable_message]) /\
  check_tokens environ_of_empty_strings start = (Ok tt, start).
Proof.
  destruct (proj1 (absent_credential_stops_startup environ_without_api_token)
              (or_introl eq_refl) start (fun _ => None) 1000 [scenario_world])
    as [Hcheck Hmain].
  split; [exact Hcheck|]. split; [exact Hmain|].
  apply (proj2 (absent_credential_stops_startup environ_of_empty_strings)
           "" "" "" start); reflexivity.
Defined.

(** A response without 'current_date': the failure is reported and the
    cursor stays at 1000. *)
Lemma failure_reported_cursor_kept_witness :
  (exists evs,
     cycle sample_environ (answering 200 "" (inr undated_response) delivering)
       scenario_state
     = (Ok tt, mkState (PInt 1000) (PStr "") ([] ++ evs)) /\
     notifications evs
     = [failure_report
          (mkKeyError "Отсутствуют ключи 'homeworks,current_date' в ответе")] /\
     In (Log ERROR
           (failure_report
              (mkKeyError "Отсутствуют ключи 'homeworks,current_date' в ответе")))
        evs) /\
  (exists evs,
     cycle sample_environ (answering 200 "" (inr undated_response) delivering)
       scenario_state
     = (Ok tt, mkState (PInt 1000) (PStr "") ([] ++ evs)) /\
     notifications evs
     = [failure_report
          (mkKeyError "Отсутствуют ключи 'homeworks,current_date' в ответе")]).
Proof.
  destruct (failure_reported_cursor_kept sample_environ
              (answering 200 "" (inr undated_response) delivering) scenario_state)
    as [Hreport Hmissing].
  split.
  - apply Hreport.
    apply validator_fails with (response := undated_response)
      (st1 := extend scenario_state
                [request sample_environ (PInt 1000); Log INFO "Запрос к API выполнен"]);
      reflexivity.
  - apply (Hmissing [("homeworks", PList [scenario_homework])]
             (extend scenario_state
                [request sample_environ (PInt 1000); Log INFO "Запрос к API выполнен"])).
    + reflexivity.
    + right. reflexivity.
Defined.


(** The validator on a string, on a response without 'current_date', on a
    number for 'homeworks' and on an empty list. *)
Lemma check_response_contract_witness :
  check_response (PStr "not a dict")
  = Raise (mkExc TypeError "Ожидается словарь, получен <class 'str'>") /\
  check_response undated_response
  = Raise (mkKeyError "Отсутствуют ключи 'homeworks,current_date' в ответе") /\
  check_response (PDict [("homeworks", PInt 7); ("current_date", PInt 1600)])
  = Raise (mkExc TypeError "Ожидается список, получен <class 'int'>") /\
  check_response (PDict [("homeworks", PList []); ("current_date", PInt 1600)]) = Ok [].
Proof.
  destruct check_response_contract as (_ & Hdict & Hkeys & Hlist & Hok).
  split; [|split; [|split]].
  - apply (Hdict (PStr "not a dict")); discriminate.
  - apply (Hkeys [("homeworks", PList [scenario_homework])]). right. reflexivity.
  - apply (Hlist [("homeworks", PInt 7); ("current_date", PInt 1600)] (PInt 7));
      [reflexivity | reflexivity | discriminate].
  - apply (Hok [("homeworks", PList []); ("current_date", PInt 1600)] []); reflexivity.
Defined.

(** C6, as stated, fails: the homework has both keys and a status, the
    empty list, that is no key of the verdict table; the parser raises the
    [TypeError] of the hashing, whose text does not name the status,
    and not the error "Неожиданный статус - []". *)
Lemma unhashable_status_not_named :
  py_in "status" unhashable_homework = Ok true /\
  py_in "homework_name" unhashable_homework = Ok true /\
  py_get unhashable_homework "status" = Ok (PList []) /\
  ~ In (PList []) verdict_keys /\
  parse_status unhashable_homework
  = Raise (mkExc TypeError "unhashable type: 'list'") /\
  parse_status unhashable_homework
  <> Raise (mkExc Exception ("Неожиданный статус - " ++ py_str (PList []))).
Proof.
  repeat split; try reflexivity.
  - intros H. apply verdict_keys_spec in H. destruct H as [H | [H | H]]; discriminate.
  - discriminate.
Qed.

(** The status 'lost' is named in the error and reported; the status []
    raises the error of the hashing. *)
Lemma unknown_status_reported_witness :
  parse_status unknown_homework
  = Raise (mkExc Exception "Неожиданный статус - lost") /\
  parse_status unhashable_homework
  = Raise (mkExc TypeError "unhashable type: 'list'") /\
  exists error evs,
    parse_status unknown_homework = Raise error /\
    cycle sample_environ (answering 200 "" (inr unknown_response) delivering)
      scenario_state
    = (Ok tt, mkState (PInt 1000) (PStr "") ([] ++ evs)) /\
    notifications evs = [failure_report error].
Proof.
  destruct unknown_status_reported as [Hparse Hcycle].
  assert (Hlost : ~ In (PStr "lost") verdict_keys).
  { intros H. apply verdict_keys_spec in H. destruct H as [H | [H | H]]; discriminate. }
  assert (Hlist : ~ In (PList []) verdict_keys).
  { intros H. apply verdict_keys_spec in H. destruct H as [H | [H | H]]; discriminate. }
  split; [|split].
  - apply (Hparse [("status", PStr "lost"); ("homework_name", PStr "hw1")]
             (PStr "lost") (PStr "hw1")); [reflexivity | reflexivity | exact Hlost].
  - apply (Hparse [("status", PList []); ("homework_name", PStr "hw1")]
             (PList []) (PStr "hw1")); [reflexivity | reflexivity | exact Hlist].
  - apply (Hcycle sample_environ (answering 200 "" (inr unknown_response) delivering)
             scenario_state (mkResponse 200 "" (inr unknown_response))
             [("homeworks", PList [unknown_homework]); ("current_date", PInt 1600)]
             [("status", PStr "lost"); ("homework_name", PStr "hw1")]
             [] (PStr "lost") (PStr "hw1") (PInt 1600));
      try reflexivity; exact Hlost.
Defined.

(** A homework named by the number 7, and the scenario. *)
Lemma parse_status_message_witness :
  parse_status (PDict [("homework_name", PInt 7); ("status", PStr "approved")])
  = Ok ("Изменился статус проверки работы " ++ dquote ++ "7" ++ dquote
        ++ ". Работа проверена: ревьюеру всё понравилось. Ура!") /\
  cycle sample_environ scenario_world scenario_state
  = (Ok tt,
     mkState (PInt 1600) (PStr "reviewing")
       [request sample_environ (PInt 1000); Log INFO "Запрос к API выполнен";
        BotSend (Some "chat-id") scenario_message;
        Log DEBUG ("Бот отправил сообщение: " ++ scenario_message);
        Sleep RETRY_PERIOD]).
Proof.
  destruct parse_status_message as (Hgeneral & _ & Hscenario).
  split.
  - apply (Hgeneral [("homework_name", PInt 7); ("status", PStr "approved")]
             "approved" (PInt 7)); reflexivity.
  - apply (Hscenario sample_environ scenario_world
             (mkResponse 200 "" (inr scenario_response)) []); reflexivity.
Defined.

(** The endpoint answers 503. *)
Lemma non_200_reported_cursor_kept_witness :
  get_api_answer sample_environ
    (answering 503 "Service Unavailable" (inl (mkExc ValueError "no JSON")) delivering)
    (PInt 1000) scenario_state
  = (Raise (mkExc Exception
              ("Эндпоинт " ++ ENDPOINT ++ " недоступен. Код ответа API: 503."
               ++ "Ошибка: Service Unavailable")),
     extend scenario_state
       [request sample_environ (PInt 1000);
        Log ERROR ("Эндпоинт " ++ ENDPOINT ++ " недоступен. Код ответа API: 503."
                   ++ "Ошибка: Service Unavailable")]) /\
  timestamp
    (snd (cycle sample_environ
            (answering 503 "Service Unavailable" (inl (mkExc ValueError "no JSON"))
               delivering)
            scenario_state))
  = PInt 1000 /\
  notifications
    (trace
       (snd (cycle sample_environ
               (answering 503 "Service Unavailable" (inl (mkExc ValueError "no JSON"))
                  delivering)
               scenario_state)))
  = ["Сбой в работе программы: Эндпоинт " ++ ENDPOINT
     ++ " недоступен. Код ответа API: 503.Ошибка: Service Unavailable"].
Proof.
  destruct (non_200_reported_cursor_kept sample_environ
              (answering 503 "Service Unavailable" (inl (mkExc ValueError "no JSON"))
                 delivering)
              scenario_state
              (mkResponse 503 "Service Unavailable" (inl (mkExc ValueError "no JSON"))))
    as [Hapi Hcycle]; [reflexivity | discriminate |].
  split; [exact Hapi|]. rewrite Hcycle. split; reflexivity.
Defined.

(** A bot that times out on every message. *)
Lemma delivery_failure_swallowed_witness :
  send_message sample_environ (failing network_error) scenario_message scenario_state
  = (Ok tt,
     mkState (PInt 1000) (PStr "")
       [BotSend (Some "chat-id") scenario_message;
        Log ERROR "Сбой в отправке сообщения с ошибкой timed out"]) /\
  fst (poll_loop sample_environ
         [answering 200 "" (inr scenario_response) (failing network_error);
          answering 200 "" (inr unknown_response) (failing network_error)]
         scenario_state)
  = Ok tt /\
  locals
    (snd (poll_loop sample_environ
            [answering 200 "" (inr scenario_response) (failing network_error);
             answering 200 "" (inr unknown_response) (failing network_error)]
            scenario_state))
  = locals
      (snd (poll_loop sample_environ
              [scenario_world; answering 200 "" (inr unknown_response) delivering]
              scenario_state)).
Proof.
  destruct (delivery_failure_swallowed sample_environ
              (answering 200 "" (inr scenario_response) (failing network_error))
              scenario_message network_error scenario_state)
    as [Hsend Hloop]; [reflexivity|].
  split; [exact Hsend|].
  apply Hloop. repeat constructor.
Defined.

(** Three iterations of [main]: an unknown status, the scenario, a 503. *)
Lemma last_status_invariant_witness :
  status_invariant
    (snd (main sample_environ (fun _ => None) 1000
            [answering 200 "" (inr unknown_response) delivering; scenario_world;
             answering 503 "Service Unavailable" (inl (mkExc ValueError "no JSON"))
               (failing network_error)]
            start)) /\
  status_invariant
    (snd (cycle sample_environ scenario_world scenario_state)).
Proof.
  destruct (last_status_invariant sample_environ) as (Hcycle & _ & Hmain & _).
  split.
  - apply Hmain. reflexivity.
  - apply (Hcycle scenario_world scenario_state). left. reflexivity.
Defined.

(** * Further properties of the functions *)

(** ** [get_api_answer] *)

(** X1. Whatever [requests.get] raises, [get_api_answer] raises an
    [Exception] with the same text in its place; the request has been
    made and nothing is logged. *)
Theorem transport_fault_rewrapped (cfg : environ) (w : world) (ts : pyval)
    (st : state) (error : pyexc) :
  requests_get w ENDPOINT (HEADERS_Authorization cfg) ts = inl error ->
  get_api_answer cfg w ts st
  = (Raise (mkExc Exception (exc_str error)), extend st [request cfg ts]) /\
  cycle cfg w (mkState ts (old_status st) (trace st))
  = (Ok tt,
     mkState ts (old_status st)
       (trace st ++ [request cfg ts;
                     Log ERROR ("Сбой в работе программы: " ++ exc_str error);
                     BotSend (TELEGRAM_CHAT_ID cfg)
                       ("Сбой в работе программы: " ++ exc_str error);
                     delivery_log cfg (bot w)
                       ("Сбой в работе программы: " ++ exc_str error);
                     Sleep RETRY_PERIOD])%list).
Proof.
  intros H. split; [now apply get_api_answer_fault|].
  pose proof (get_api_answer_fault cfg w ts (mkState ts (old_status st) (trace st))
                error H) as Hapi.
  rewrite (cycle_raise _ _ _ _ _ (poll_api_raise _ _ _ _ _ Hapi)), extend_extend.
  reflexivity.
Qed.

(** The endpoint is unreachable. *)
Lemma transport_fault_rewrapped_witness :
  get_api_answer sample_environ (mkWorld (fun _ _ _ => inl network_error) delivering)
    (PInt 1000) scenario_state
  = (Raise (mkExc Exception "timed out"),
     extend scenario_state [request sample_environ (PInt 1000)]).
Proof.
  apply (transport_fault_rewrapped sample_environ
           (mkWorld (fun _ _ _ => inl network_error) delivering)
           (PInt 1000) scenario_state network_error).
  reflexivity.
Defined.

(** X2. On a 200 answer [get_api_answer] logs at info level and returns
    what [response.json()] returns; what [response.json()] raises leaves
    the function as it is, class and text, and the body text plays no
    part. *)
Theorem ok_answer_is_parsed_body (cfg : environ) (w : world) (ts : pyval)
    (st : state) (r : Response) :
  requests_get w ENDPOINT (HEADERS_Authorization cfg) ts = inr r ->
  status_code r = 200 ->
  (forall v, json r = inr v ->
     get_api_answer cfg w ts st
     = (Ok v, extend st [request cfg ts; Log INFO "Запрос к API выполнен"])) /\
  (forall error, json r = inl error ->
     get_api_answer cfg w ts st
     = (Raise error, extend st [request cfg ts; Log INFO "Запрос к API выполнен"])).
Proof.
  intros H Hcode.
  pose proof (get_api_answer_ok cfg w ts st r H Hcode) as Hapi.
  split; intros x Hj; rewrite Hj in Hapi; exact Hapi.
Qed.

(** A parsed body, and a body that is no JSON. *)
Lemma ok_answer_is_parsed_body_witness :
  get_api_answer sample_environ scenario_world (PInt 1000) scenario_state
  = (Ok scenario_response,
     extend scenario_state
       [request sample_environ (PInt 1000); Log INFO "Запрос к API выполнен"]) /\
  get_api_answer sample_environ
    (answering 200 "<html>" (inl (mkExc ValueError "Expecting value")) delivering)
    (PInt 1000) scenario_state
  = (Raise (mkExc ValueError "Expecting value"),
     extend scenario_state
       [request sample_environ (PInt 1000); Log INFO "Запрос к API выполнен"]).
Proof.
  split.
  - apply (proj1 (ok_answer_is_parsed_body sample_environ scenario_world (PInt 1000)
                    scenario_state (mkResponse 200 "" (inr scenario_response))
                    eq_refl eq_refl)).
    reflexivity.
  - apply (proj2 (ok_answer_is_parsed_body sample_environ
                    (answering 200 "<html>" (inl (mkExc ValueError "Expecting value"))
                       delivering)
                    (PInt 1000) scenario_state
                    (mkResponse 200 "<html>" (inl (mkExc ValueError "Expecting value")))
                    eq_refl eq_refl)).
    reflexivity.
Defined.

(** What [get_api_answer] records: the request, then at most one line of
    log; the same for every bot and every state. *)
Lemma get_api_answer_shape cfg get ts :
  exists r logs,
    (forall b st,
       get_api_answer cfg (mkWorld get b) ts st = (r, extend st (request cfg ts :: logs))) /\
    r <> SystemExit /\
    (logs = [] \/ exists lvl msg, logs = [Log lvl msg]).
Proof.
  destruct (get ENDPOINT (HEADERS_Authorization cfg) ts) as [error|r] eqn:H.
  - exists (Raise (mkExc Exception (exc_str error))), [].
    split; [|split; [discriminate|now left]].
    intros b st. now apply get_api_answer_fault.
  - destruct (Z.eq_dec (status_code r) 200) as [Hc|Hc].
    + exists (match json r with inr v => Ok v | inl e => Raise e end),
             [Log INFO "Запрос к API выполнен"].
      split; [|split; [destruct (json r); discriminate|right; eauto]].
      intros b st. now apply get_api_answer_ok.
    + eexists. eexists. split; [|split; [|right; eauto]].
      * intros b st. apply (get_api_answer_not_ok cfg (mkWorld get b) ts st r H Hc).
      * discriminate.
Qed.

(** X3. One call of [get_api_answer] makes exactly one request, to the
    endpoint, with the header "OAuth <PRACTICUM_TOKEN>" and the given
    timestamp as [from_date]; it writes at most one line of log after it,
    never calls the bot, never exits and leaves the cursor and Last
    Status alone. *)
Theorem get_api_answer_footprint (cfg : environ) (w : world) (ts : pyval) (st : state) :
  exists r logs,
    get_api_answer cfg w ts st
    = (r, mkState (timestamp st) (old_status st)
            (trace st
             ++ HttpGet ENDPOINT ("OAuth " ++ str_of_env (PRACTICUM_TOKEN cfg)) ts
             :: logs)%list) /\
    r <> SystemExit /\
    (List.length logs <= 1)%nat /\
    existsb is_request logs = false /\
    notifications logs = [].
Proof.
  destruct w as [get b].
  destruct (get_api_answer_shape cfg get ts) as (r & logs & Hrun & Hr & Hlogs).
  exists r, logs. split; [apply Hrun|]. split; [exact Hr|].
  destruct Hlogs as [-> | (lvl & msg & ->)]; cbn; repeat split; lia.
Qed.

(** ** [check_response] and [parse_status] *)

(** X4. The validator accepts exactly the dicts that hold a list under
    'homeworks' and any value under 'current_date', and returns that
    list; it looks neither at the type of 'current_date' nor at the
    elements of the list. *)
Theorem check_response_accepts_iff (response : pyval) (homeworks : list pyval) :
  check_response response = Ok homeworks <->
  exists d current_date,
    response = PDict d /\
    lookup "homeworks" d = Some (PList homeworks) /\
    lookup "current_date" d = Some current_date.
Proof.
  split.
  - apply check_response_ok_inv.
  - intros (d & cd & -> & Hh & Hd). now apply check_response_valid with (current_date := cd).
Qed.

(** A date that is a string and homeworks that are no dicts pass. *)
Lemma check_response_accepts_iff_witness :
  check_response
    (PDict [("current_date", PStr "yesterday"); ("homeworks", PList [PInt 1; PNone])])
  = Ok [PInt 1; PNone].
Proof.
  apply (proj2 (check_response_accepts_iff
                  (PDict [("current_date", PStr "yesterday");
                          ("homeworks", PList [PInt 1; PNone])])
                  [PInt 1; PNone])).
  exists [("current_date", PStr "yesterday"); ("homeworks", PList [PInt 1; PNone])],
         (PStr "yesterday").
  repeat split; reflexivity.
Defined.

(** X5. The parser returns a message exactly for a dict that has a
    'homework_name' and whose 'status' is one of the three keys of the
    verdict table, and the message is then the one built from the name
    and the verdict; on anything else it raises. *)
Theorem parse_status_succeeds_iff (homework : pyval) (message : string) :
  parse_status homework = Ok message <->
  exists h status homework_name verdict,
    homework = PDict h /\
    lookup "status" h = Some (PStr status) /\
    lookup "homework_name" h = Some homework_name /\
    lookup status HOMEWORK_VERDICTS = Some verdict /\
    message = "Изменился статус проверки работы " ++ dquote ++ py_str homework_name
              ++ dquote ++ ". " ++ verdict.
Proof.
  split.
  - destruct homework as [| | | | s | l | h];
      try (unfold parse_status, py_in; cbn; discriminate).
    + unfold parse_status, py_in, py_get, obind.
      destruct (is_substring "status" s); discriminate.
    + unfold parse_status, py_in, py_get, obind.
      destruct (existsb _ l); discriminate.
    + destruct (lookup "status" h) as [status|] eqn:Hs.
      2:{ unfold parse_status, py_in, has_key, obind. rewrite Hs. discriminate. }
      destruct (lookup "homework_name" h) as [name|] eqn:Hn.
      2:{ unfold parse_status, py_in, py_get, has_key, obind. rewrite Hs, Hn.
          discriminate. }
      rewrite (parse_status_dict _ _ _ Hs Hn). unfold obind.
      destruct status as [| | | | key | |]; try discriminate.
      unfold in_HOMEWORK_VERDICTS, HOMEWORK_VERDICTS_get, has_key.
      destruct (lookup key HOMEWORK_VERDICTS) as [verdict|] eqn:Hv; [|discriminate].
      cbn [negb py_str]. intros [= <-].
      now exists h, key, name, verdict.
  - intros (h & status & name & verdict & -> & Hs & Hn & Hv & ->).
    rewrite (parse_status_dict _ _ _ Hs Hn).
    unfold in_HOMEWORK_VERDICTS, HOMEWORK_VERDICTS_get, has_key, obind.
    now rewrite Hv.
Qed.

(** A rejected homework, whatever else the dict holds. *)
Lemma parse_status_succeeds_iff_witness :
  parse_status
    (PDict [("id", PInt 7); ("status", PStr "rejected"); ("homework_name", PStr "hw2")])
  = Ok ("Изменился статус проверки работы " ++ dquote ++ "hw2" ++ dquote
        ++ ". Работа проверена: у ревьюера есть замечания.").
Proof.
  apply (proj2 (parse_status_succeeds_iff
                  (PDict [("id", PInt 7); ("status", PStr "rejected");
                          ("homework_name", PStr "hw2")])
                  ("Изменился статус проверки работы " ++ dquote ++ "hw2" ++ dquote
                   ++ ". Работа проверена: у ревьюера есть замечания."))).
  exists [("id", PInt 7); ("status", PStr "rejected"); ("homework_name", PStr "hw2")],
         "rejected", (PStr "hw2"), "Работа проверена: у ревьюера есть замечания.".
  repeat split; reflexivity.
Defined.

(** X6. The parser checks the keys before the status, 'status' first: a
    dict without 'status' raises the [KeyError] for 'status' whether it
    has a name or not, and a dict with a 'status' and no 'homework_name'
    raises the [KeyError] for 'homework_name' whatever the status is,
    known, unknown or unhashable. *)
Theorem parse_status_missing_keys (h : list (string * pyval)) :
  (lookup "status" h = None ->
   parse_status (PDict h)
   = Raise (mkKeyError ("Нет такого ключа " ++ dquote ++ "status" ++ dquote))) /\
  (forall status,
     lookup "status" h = Some status ->
     lookup "homework_name" h = None ->
     parse_status (PDict h)
     = Raise (mkKeyError ("Нет такого ключа " ++ dquote ++ "homework_name" ++ dquote))).
Proof.
  split.
  - intros Hs. unfold parse_status, py_in, has_key, obind. now rewrite Hs.
  - intros status Hs Hn. unfold parse_status, py_in, py_get, has_key, obind.
    now rewrite Hs, Hn.
Qed.

(** An empty dict, and a dict whose only key is a status that is a list. *)
Lemma parse_status_missing_keys_witness :
  parse_status (PDict [])
  = Raise (mkKeyError ("Нет такого ключа " ++ dquote ++ "status" ++ dquote)) /\
  parse_status (PDict [("status", PList [])])
  = Raise (mkKeyError ("Нет такого ключа " ++ dquote ++ "homework_name" ++ dquote)).
Proof.
  split.
  - apply (proj1 (parse_status_missing_keys [])). reflexivity.
  - apply (proj2 (parse_status_missing_keys [("status", PList [])]) (PList []));
      reflexivity.
Defined.

(** ** The shape of an iteration *)

Lemma count_app f tr tr' : count f (tr ++ tr') = (count f tr + count f tr')%nat.
Proof. unfold count. now rewrite filter_app, length_app. Qed.

Lemma count_talk f tr :
  (forall e, is_talk e = true -> f e = false) ->
  forallb is_talk tr = true -> count f tr = 0%nat.
Proof.
  intros Hf. induction tr as [|e tr IH]; [reflexivity|].
  cbn [forallb]. intros H. apply andb_prop in H. destruct H as [He Htr].
  unfold count in *. cbn [filter]. rewrite (Hf e He). now apply IH.
Qed.

Lemma talk_is_no_request e : is_talk e = true -> is_request e = false.
Proof. now destruct e. Qed.

Lemma talk_is_no_sleep e : is_talk e = true -> is_sleep e = false.
Proof. now destruct e. Qed.

Ltac talk_solve Hlogs :=
  destruct Hlogs as [-> | (?lvl & ?msg & ->)];
  unfold delivery_log;
  try match goal with
      | |- context [bot_send_message ?b ?c ?m] => destruct (bot_send_message b c m)
      end;
  cbn; repeat split; try reflexivity; try lia.

(** One run of [poll] records the request with the cursor first, and then
    only logs and at most one message to the bot; when it raises, it has
    not called the bot. *)
Lemma poll_shape cfg w st :
  exists r ts' old' mid,
    poll cfg w st
    = (r, mkState ts' old' (trace st ++ request cfg (timestamp st) :: mid)%list) /\
    r <> SystemExit /\
    forallb is_talk mid = true /\
    (List.length (notifications mid) <= 1)%nat /\
    (forall e, r = Raise e ->
       notifications mid = [] /\ ts' = timestamp st /\ old' = old_status st).
Proof.
  destruct w as [get b], st as [ts old tr]. cbn [timestamp trace old_status].
  destruct (get_api_answer_shape cfg get ts) as (r0 & logs & Hrun & Hr & Hlogs).
  pose proof (Hrun b (mkState ts old tr)) as Hapi.
  assert (Hfail : forall e st1,
            poll cfg (mkWorld get b) (mkState ts old tr) = (Raise e, st1) ->
            st1 = extend (mkState ts old tr) (request cfg ts :: logs) ->
            exists r ts' old' mid,
              poll cfg (mkWorld get b) (mkState ts old tr)
              = (r, mkState ts' old' (tr ++ request cfg ts :: mid)%list) /\
              r <> SystemExit /\ forallb is_talk mid = true /\
              (List.length (notifications mid) <= 1)%nat /\
              (forall e, r = Raise e ->
                 notifications mid = [] /\ ts' = ts /\ old' = old)).
  { intros e st1 Hp ->. exists (Raise e), ts, old, logs.
    split; [exact Hp|]. split; [discriminate|]. talk_solve Hlogs. }
  destruct r0 as [v|e|]; [| |contradiction].
  2:{ eapply Hfail; [apply (poll_api_raise cfg (mkWorld get b) (mkState ts old tr)),
                      Hapi | reflexivity]. }
  destruct (check_response v) as [homeworks|e|] eqn:Hc.
  3:{ now apply check_response_no_exit in Hc. }
  2:{ eapply Hfail;
        [apply (poll_validator_raise cfg (mkWorld get b) (mkState ts old tr) v _ e Hapi Hc)
        | reflexivity]. }
  destruct (check_response_ok_inv _ _ Hc) as (d & cd & -> & Hh & Hd).
  destruct homeworks as [|first rest].
  { exists (Ok tt), cd, old, logs.
    rewrite (poll_no_homeworks cfg (mkWorld get b) (mkState ts old tr) d cd _ Hapi Hh Hd).
    split; [reflexivity|]. split; [discriminate|]. talk_solve Hlogs; discriminate. }
  destruct (py_get first "status") as [new_status|e|] eqn:Hg.
  3:{ destruct first; discriminate. }
  2:{ eapply Hfail;
        [apply (poll_get_raise cfg (mkWorld get b) (mkState ts old tr) _ _ first rest e
                  Hapi Hc Hg)
        | reflexivity]. }
  destruct (py_ne new_status old) eqn:Hne.
  - destruct (parse_status first) as [message|e|] eqn:Hp.
    3:{ now apply parse_status_no_exit in Hp. }
    2:{ eapply Hfail;
          [apply (poll_parser_raise cfg (mkWorld get b) (mkState ts old tr) _ _ first rest
                    new_status e Hapi Hc Hg Hne Hp)
          | reflexivity]. }
    exists (Ok tt), cd, new_status,
      (logs ++ [BotSend (TELEGRAM_CHAT_ID cfg) message; delivery_log cfg b message])%list.
    rewrite (poll_new_status cfg (mkWorld get b) (mkState ts old tr) d cd _ first rest
               new_status message Hapi Hh Hd Hg Hne Hp).
    cbn [extend trace bot]. rewrite <- app_assoc.
    split; [reflexivity|]. split; [discriminate|]. talk_solve Hlogs; discriminate.
  - exists (Ok tt), cd, old, (logs ++ [Log DEBUG "Нет новых статусов"])%list.
    rewrite (poll_same_status cfg (mkWorld get b) (mkState ts old tr) d cd _ first rest
               new_status Hapi Hh Hd Hg Hne).
    cbn [extend trace old_status]. rewrite <- app_assoc.
    split; [reflexivity|]. split; [discriminate|]. talk_solve Hlogs; discriminate.
Qed.

(** One iteration ends normally; it records the request with the cursor
    first and the sleep last, and between them only logs and at most one
    message to the bot. *)
Lemma cycle_events cfg w st :
  exists ts' old' mid,
    cycle cfg w st
    = (Ok tt,
       mkState ts' old'
         (trace st ++ request cfg (timestamp st) :: mid ++ [Sleep RETRY_PERIOD])%list) /\
    forallb is_talk mid = true /\
    (List.length (notifications mid) <= 1)%nat.
Proof.
  destruct (poll_shape cfg w st) as (r & ts' & old' & mid & Hp & Hr & Htalk & Hlen & Hraise).
  destruct r as [[]|e|]; [| |contradiction].
  - exists ts', old', mid. rewrite (cycle_ok _ _ _ _ Hp).
    unfold extend. cbn [timestamp old_status trace]. rewrite <- app_assoc.
    now repeat split.
  - destruct (Hraise e eq_refl) as (Hn & -> & ->).
    exists (timestamp st), (old_status st),
      (mid ++ [Log ERROR (failure_report e);
               BotSend (TELEGRAM_CHAT_ID cfg) (failure_report e);
               delivery_log cfg (bot w) (failure_report e)])%list.
    rewrite (cycle_raise _ _ _ _ _ Hp).
    unfold extend. cbn [timestamp old_status trace].
    rewrite <- !app_assoc. cbn [app]. split; [reflexivity|].
    rewrite forallb_app, Htalk, notifications_app, Hn.
    unfold delivery_log. destruct (bot_send_message _ _ _); cbn; split; (reflexivity || lia).
Qed.

(** X7. Every iteration ends normally, whatever the endpoint and the bot
    do.  What it records starts with the one request it makes, which
    carries the cursor as [from_date], and ends with the one sleep of
    600 seconds; in between the bot is called at most once. *)
Theorem cycle_one_request_one_sleep (cfg : environ) (w : world) (st : state) :
  exists ts' old' evs,
    cycle cfg w st = (Ok tt, mkState ts' old' (trace st ++ evs)%list) /\
    hd_error evs
    = Some (HttpGet ENDPOINT ("OAuth " ++ str_of_env (PRACTICUM_TOKEN cfg)) (timestamp st)) /\
    last evs (Sleep 0) = Sleep 600 /\
    count is_request evs = 1%nat /\
    count is_sleep evs = 1%nat /\
    (List.length (notifications evs) <= 1)%nat.
Proof.
  destruct (cycle_events cfg w st) as (ts' & old' & mid & Hc & Htalk & Hlen).
  exists ts', old', (request cfg (timestamp st) :: mid ++ [Sleep RETRY_PERIOD])%list.
  split; [exact Hc|]. split; [reflexivity|]. split; [|split; [|split]].
  - change (request cfg (timestamp st) :: mid ++ [Sleep RETRY_PERIOD])%list
      with ((request cfg (timestamp st) :: mid) ++ [Sleep RETRY_PERIOD])%list.
    now rewrite last_last.
  - change (request cfg (timestamp st) :: mid ++ [Sleep RETRY_PERIOD])%list
      with ([request cfg (timestamp st)] ++ mid ++ [Sleep RETRY_PERIOD])%list.
    rewrite !count_app, (count_talk is_request mid talk_is_no_request Htalk).
    reflexivity.
  - change (request cfg (timestamp st) :: mid ++ [Sleep RETRY_PERIOD])%list
      with ([request cfg (timestamp st)] ++ mid ++ [Sleep RETRY_PERIOD])%list.
    rewrite !count_app, (count_talk is_sleep mid talk_is_no_sleep Htalk).
    reflexivity.
  - change (notifications (request cfg (timestamp st) :: mid ++ [Sleep RETRY_PERIOD]))
      with (notifications (mid ++ [Sleep RETRY_PERIOD])).
    rewrite notifications_app. cbn [notifications]. now rewrite app_nil_r.
Qed.

(** X8. The loop never stops on a failure: a run over any number of
    iterations ends each of them normally and makes exactly one request
    and one sleep per iteration, and calls the bot at most once per
    iteration; the trace it started with is kept. *)
Theorem loop_runs_every_iteration (cfg : environ) (ws : list world) (st : state) :
  fst (poll_loop cfg ws st) = Ok tt /\
  exists evs,
    trace (snd (poll_loop cfg ws st)) = (trace st ++ evs)%list /\
    count is_request evs = List.length ws /\
    count is_sleep evs = List.length ws /\
    (List.length (notifications evs) <= List.length ws)%nat.
Proof.
  revert st. induction ws as [|w ws IH]; intros st.
  - split; [reflexivity|]. exists []. cbn. rewrite app_nil_r. repeat split. lia.
  - destruct (cycle_events cfg w st) as (ts' & old' & mid & Hc & Htalk & Hlen).
    cbn [poll_loop]. rewrite (bind_ok _ _ _ _ _ Hc).
    destruct (IH (mkState ts' old'
                    (trace st ++ request cfg (timestamp st) :: mid ++ [Sleep RETRY_PERIOD])))
      as (Hok & evs & Htr & Hreq & Hsl & Hn).
    split; [exact Hok|].
    exists (([request cfg (timestamp st)] ++ mid ++ [Sleep RETRY_PERIOD]) ++ evs)%list.
    rewrite Htr. cbn [trace].
    split; [exact (eq_sym (app_assoc (trace st)
                             (request cfg (timestamp st) :: mid ++ [Sleep RETRY_PERIOD])
                             evs))|].
    rewrite !count_app, !notifications_app, !length_app, Hreq, Hsl.
    rewrite (count_talk is_request mid talk_is_no_request Htalk).
    rewrite (count_talk is_sleep mid talk_is_no_sleep Htalk).
    cbn [count filter is_request is_sleep request List.length notifications Nat.add].
    repeat split; lia.
Qed.

(** X9. A failure is not remembered: as long as the same world makes the
    body of the loop fail, every iteration sends the failure report
    again, and the cursor and Last Status stay where they were. *)
Theorem failure_is_reported_every_time (cfg : environ) (w : world) (st st1 : state)
    (error : pyexc) (n : nat) :
  poll cfg w st = (Raise error, st1) ->
  locals (snd (poll_loop cfg (repeat w n) st)) = locals st /\
  exists evs,
    trace (snd (poll_loop cfg (repeat w n) st)) = (trace st ++ evs)%list /\
    notifications evs = repeat (failure_report error) n.
Proof.
  destruct w as [get b], st as [ts old tr]. intros Hfail.
  destruct (poll_spec cfg get ts old)
    as [e evs0 Hn0 Hp | cd evs0 _ Hp | cd first new message evs0 _ _ _ Hp];
    try (rewrite (Hp b tr) in Hfail; discriminate).
  assert (e = error) by (rewrite (Hp b tr) in Hfail; now injection Hfail).
  subst e. clear Hfail st1. revert tr.
  induction n as [|n IH]; intros tr.
  - split; [reflexivity|]. exists []. cbn. now rewrite app_nil_r.
  - cbn [repeat poll_loop].
    rewrite (bind_ok _ _ _ _ _ (cycle_raise _ _ _ _ _ (Hp b tr))).
    unfold extend. cbn [timestamp old_status trace bot].
    destruct (IH ((tr ++ evs0)
                  ++ [Log ERROR (failure_report error);
                      BotSend (TELEGRAM_CHAT_ID cfg) (failure_report error);
                      delivery_log cfg b (failure_report error);
                      Sleep RETRY_PERIOD])%list)
      as (Hloc & evs & Htr & Hn).
    split; [exact Hloc|].
    exists (evs0
            ++ [Log ERROR (failure_report error);
                BotSend (TELEGRAM_CHAT_ID cfg) (failure_report error);
                delivery_log cfg b (failure_report error);
                Sleep RETRY_PERIOD] ++ evs)%list.
    rewrite Htr. cbn [trace]. split; [now rewrite <- !app_assoc|].
    rewrite !notifications_app, Hn0, Hn.
    now rewrite notifications_report.
Qed.

(** The endpoint stays unreachable for three iterations. *)
Lemma failure_is_reported_every_time_witness :
  locals (snd (poll_loop sample_environ (repeat (unreachable delivering) 3) scenario_state))
  = locals scenario_state /\
  exists evs,
    trace (snd (poll_loop sample_environ (repeat (unreachable delivering) 3)
                  scenario_state))
    = (trace scenario_state ++ evs)%list /\
    notifications evs
    = repeat (failure_report (mkExc Exception "timed out")) 3.
Proof.
  apply (failure_is_reported_every_time sample_environ (unreachable delivering)
           scenario_state
           (extend scenario_state [request sample_environ (PInt 1000)])
           (mkExc Exception "timed out") 3).
  reflexivity.
Defined.

(** ** What an iteration tells *)

(** X10. Last Status changes only together with a notification: if an
    iteration ends with another Last Status than it began with, then the
    new value is the status of a homework on which the parser succeeded,
    so a key of the verdict table, and the iteration has called the bot
    exactly once, with the message of the parser. *)
Theorem status_changes_only_when_notified (cfg : environ) (w : world) (st : state) :
  old_status (snd (cycle cfg w st)) <> old_status st ->
  exists first message evs,
    parse_status first = Ok message /\
    py_get first "status" = Ok (old_status (snd (cycle cfg w st))) /\
    In (old_status (snd (cycle cfg w st))) verdict_keys /\
    trace (snd (cycle cfg w st)) = (trace st ++ evs)%list /\
    notifications evs = [message].
Proof.
  destruct w as [get b], st as [ts old tr].
  destruct (poll_spec cfg get ts old)
    as [e evs0 Hn0 Hp | cd evs0 Hn0 Hp | cd first new message evs0 Hn0 Hg Hm Hp].
  - rewrite (cycle_raise _ _ _ _ _ (Hp b tr)). cbn. intros H. now destruct H.
  - rewrite (cycle_ok _ _ _ _ (Hp b tr)). cbn. intros H. now destruct H.
  - rewrite (cycle_ok _ _ _ _ (Hp b tr)). cbn [snd extend old_status trace timestamp].
    intros _. exists first, message.
    exists (evs0 ++ [BotSend (TELEGRAM_CHAT_ID cfg) message; delivery_log cfg b message]
            ++ [Sleep RETRY_PERIOD])%list.
    split; [exact Hm|]. split; [exact Hg|]. split; [|split].
    + destruct (parse_status_ok_inv _ _ Hm) as (new' & Hg' & Hin).
      rewrite Hg in Hg'. now injection Hg' as <-.
    + now rewrite <- !app_assoc.
    + rewrite !notifications_app, Hn0.
      change (notifications (BotSend ?c message :: ?l)) with (message :: notifications l).
      now rewrite notifications_delivery_log.
Qed.

(** The scenario: Last Status goes from '' to 'reviewing'. *)
Lemma status_changes_only_when_notified_witness :
  exists first message evs,
    parse_status first = Ok message /\
    py_get first "status"
    = Ok (old_status (snd (cycle sample_environ scenario_world scenario_state))) /\
    In (old_status (snd (cycle sample_environ scenario_world scenario_state)))
       verdict_keys /\
    trace (snd (cycle sample_environ scenario_world scenario_state))
    = (trace scenario_state ++ evs)%list /\
    notifications evs = [message].
Proof.
  apply (status_changes_only_when_notified sample_environ scenario_world scenario_state).
  discriminate.
Defined.

(** X11. A failure is never silent: if an iteration has not called the
    bot, then the body of the loop has not raised, and Last Status is
    the one the iteration began with. *)
Theorem silent_cycle_did_not_fail (cfg : environ) (w : world) (st : state)
    (evs : list event) :
  trace (snd (cycle cfg w st)) = (trace st ++ evs)%list ->
  notifications evs = [] ->
  fst (poll cfg w st) = Ok tt /\
  old_status (snd (cycle cfg w st)) = old_status st.
Proof.
  destruct w as [get b], st as [ts old tr].
  destruct (poll_spec cfg get ts old)
    as [e evs0 Hn0 Hp | cd evs0 Hn0 Hp | cd first new message evs0 Hn0 Hg Hm Hp].
  - rewrite (cycle_raise _ _ _ _ _ (Hp b tr)). cbn [snd extend trace].
    rewrite <- app_assoc. intros H Hn. apply app_inv_head in H. subst evs.
    rewrite notifications_app, Hn0, notifications_report in Hn. discriminate.
  - rewrite (cycle_ok _ _ _ _ (Hp b tr)), (Hp b tr). now split.
  - rewrite (cycle_ok _ _ _ _ (Hp b tr)). cbn [snd extend trace].
    rewrite <- !app_assoc. intros H Hn. apply app_inv_head in H. subst evs.
    rewrite notifications_app, Hn0 in Hn. discriminate.
Qed.

(** The scenario against Last Status 'reviewing': nothing is sent. *)
Lemma silent_cycle_did_not_fail_witness :
  fst (poll sample_environ scenario_world (mkState (PInt 1000) (PStr "reviewing") []))
  = Ok tt /\
  old_status
    (snd (cycle sample_environ scenario_world (mkState (PInt 1000) (PStr "reviewing") [])))
  = PStr "reviewing".
Proof.
  apply (silent_cycle_did_not_fail sample_environ scenario_world
           (mkState (PInt 1000) (PStr "reviewing") [])
           [request sample_environ (PInt 1000); Log INFO "Запрос к API выполнен";
            Log DEBUG "Нет новых статусов"; Sleep RETRY_PERIOD]);
    reflexivity.
Defined.

(** ** Responses at the edges *)

(** X12. A valid response with an empty list of homeworks is no event:
    the bot is not called, not even "Нет новых статусов" is logged, Last
    Status is kept and the cursor moves to 'current_date'. *)
Theorem empty_homeworks_advance_cursor (cfg : environ) (w : world) (st : state)
    (r : Response) (d : list (string * pyval)) (current_date : pyval) :
  requests_get w ENDPOINT (HEADERS_Authorization cfg) (timestamp st) = inr r ->
  status_code r = 200 ->
  json r = inr (PDict d) ->
  lookup "homeworks" d = Some (PList []) ->
  lookup "current_date" d = Some current_date ->
  cycle cfg w st
  = (Ok tt,
     mkState current_date (old_status st)
       (trace st ++ [request cfg (timestamp st); Log INFO "Запрос к API выполнен";
                     Sleep RETRY_PERIOD])%list) /\
  notifications (trace (snd (cycle cfg w st))) = notifications (trace st).
Proof.
  intros H Hcode Hjson Hh Hd.
  pose proof (cycle_no_homeworks cfg w st r d current_date H Hcode Hjson Hh Hd) as Hc.
  split; [exact Hc|].
  rewrite Hc. cbn [snd trace]. rewrite notifications_app. cbn [notifications].
  apply app_nil_r.
Qed.

Lemma empty_homeworks_advance_cursor_witness :
  cycle sample_environ (answering 200 "" (inr empty_response) delivering)
    (mkState (PInt 1000) (PStr "approved") [])
  = (Ok tt,
     mkState (PInt 1600) (PStr "approved")
       [request sample_environ (PInt 1000); Log INFO "Запрос к API выполнен";
        Sleep RETRY_PERIOD]).
Proof.
  apply (empty_homeworks_advance_cursor sample_environ
           (answering 200 "" (inr empty_response) delivering)
           (mkState (PInt 1000) (PStr "approved") [])
           (mkResponse 200 "" (inr empty_response))
           [("homeworks", PList []); ("current_date", PInt 1600)] (PInt 1600));
    reflexivity.
Defined.

(** X13. The validator does not look into the list, so a first homework
    that is no dict gets as far as [homeworks[0].get]: the
    [AttributeError] is reported like any failure and the cursor and
    Last Status are kept. *)
Theorem first_homework_not_a_dict (cfg : environ) (w : world) (st : state)
    (r : Response) (d : list (string * pyval)) (first : pyval) (rest : list pyval)
    (current_date : pyval) :
  requests_get w ENDPOINT (HEADERS_Authorization cfg) (timestamp st) = inr r ->
  status_code r = 200 ->
  json r = inr (PDict d) ->
  lookup "homeworks" d = Some (PList (first :: rest)) ->
  lookup "current_date" d = Some current_date ->
  (forall h, first <> PDict h) ->
  let report :=
    "Сбой в работе программы: '" ++ type_name first
    ++ "' object has no attribute 'get'" in
  cycle cfg w st
  = (Ok tt,
     mkState (timestamp st) (old_status st)
       (trace st ++ [request cfg (timestamp st); Log INFO "Запрос к API выполнен";
                     Log ERROR report;
                     BotSend (TELEGRAM_CHAT_ID cfg) report;
                     delivery_log cfg (bot w) report;
                     Sleep RETRY_PERIOD])%list).
Proof.
  intros H Hcode Hjson Hh Hd Hnd report.
  pose proof (get_api_answer_ok cfg w (timestamp st) st r H Hcode) as Hapi.
  rewrite Hjson in Hapi.
  assert (Hg : py_get first "status"
               = Raise (mkExc AttributeError
                          ("'" ++ type_name first ++ "' object has no attribute 'get'"))).
  { destruct first; try reflexivity. now destruct (Hnd d0). }
  rewrite (cycle_raise _ _ _ _ _
             (poll_get_raise _ _ _ _ _ _ _ _ Hapi (check_response_valid _ _ _ Hh Hd) Hg)).
  rewrite extend_extend. reflexivity.
Qed.

Lemma first_homework_not_a_dict_witness :
  notifications
    (trace (snd (cycle sample_environ (answering 200 "" (inr odd_response) delivering)
                   scenario_state)))
  = ["Сбой в работе программы: 'str' object has no attribute 'get'"] /\
  timestamp (snd (cycle sample_environ (answering 200 "" (inr odd_response) delivering)
                    scenario_state))
  = PInt 1000.
Proof.
  rewrite (first_homework_not_a_dict sample_environ
             (answering 200 "" (inr odd_response) delivering) scenario_state
             (mkResponse 200 "" (inr odd_response))
             [("homeworks", PList [PStr "hw1"]); ("current_date", PInt 1600)]
             (PStr "hw1") [] (PInt 1600));
    try reflexivity.
  - split; reflexivity.
  - discriminate.
Defined.

(** X14. A first homework without 'status' has the status [None], which
    differs from any Last Status that is not [None] itself; the parser
    is called and its [KeyError] for 'status' is reported, in every
    iteration that receives such a homework, and the cursor is kept. *)
Theorem homework_without_status (cfg : environ) (w : world) (st : state)
    (r : Response) (d h : list (string * pyval)) (rest : list pyval)
    (current_date : pyval) :
  requests_get w ENDPOINT (HEADERS_Authorization cfg) (timestamp st) = inr r ->
  status_code r = 200 ->
  json r = inr (PDict d) ->
  lookup "homeworks" d = Some (PList (PDict h :: rest)) ->
  lookup "current_date" d = Some current_date ->
  lookup "status" h = None ->
  old_status st <> PNone ->
  let report :=
    "Сбой в работе программы: 'Нет такого ключа " ++ dquote ++ "status" ++ dquote ++ "'" in
  cycle cfg w st
  = (Ok tt,
     mkState (timestamp st) (old_status st)
       (trace st ++ [request cfg (timestamp st); Log INFO "Запрос к API выполнен";
                     Log ERROR report;
                     BotSend (TELEGRAM_CHAT_ID cfg) report;
                     delivery_log cfg (bot w) report;
                     Sleep RETRY_PERIOD])%list).
Proof.
  intros H Hcode Hjson Hh Hd Hs Hold report.
  pose proof (get_api_answer_ok cfg w (timestamp st) st r H Hcode) as Hapi.
  rewrite Hjson in Hapi.
  assert (Hg : py_get (PDict h) "status" = Ok PNone) by (cbn; now rewrite Hs).
  assert (Hne : py_ne PNone (old_status st) = true).
  { destruct (old_status st); try reflexivity. now destruct Hold. }
  assert (Hp : parse_status (PDict h)
               = Raise (mkKeyError ("Нет такого ключа " ++ dquote ++ "status" ++ dquote))).
  { unfold parse_status, py_in, has_key, obind. now rewrite Hs. }
  rewrite (cycle_raise _ _ _ _ _
             (poll_parser_raise _ _ _ _ _ _ _ _ _ Hapi
                (check_response_valid _ _ _ Hh Hd) Hg Hne Hp)).
  rewrite extend_extend. reflexivity.
Qed.

Lemma homework_without_status_witness :
  notifications
    (trace (snd (cycle sample_environ
                   (answering 200 "" (inr statusless_response) delivering)
                   scenario_state)))
  = ["Сбой в работе программы: 'Нет такого ключа " ++ dquote ++ "status" ++ dquote ++ "'"]
  /\
  locals (snd (cycle sample_environ
                 (answering 200 "" (inr statusless_response) delivering)
                 scenario_state))
  = (PInt 1000, PStr "").
Proof.
  rewrite (homework_without_status sample_environ
             (answering 200 "" (inr statusless_response) delivering) scenario_state
             (mkResponse 200 "" (inr statusless_response))
             [("homeworks", PList [PDict [("homework_name", PStr "hw1")]]);
              ("current_date", PInt 1600)]
             [("homework_name", PStr "hw1")] [] (PInt 1600));
    try reflexivity.
  - split; reflexivity.
  - discriminate.
Defined.

(** ** The cursor from one iteration to the next *)

Lemma poll_loop_extends cfg ws st :
  fst (poll_loop cfg ws st) = Ok tt /\
  exists evs, trace (snd (poll_loop cfg ws st)) = (trace st ++ evs)%list.
Proof.
  revert st. induction ws as [|w ws IH]; intros st.
  - split; [reflexivity|]. exists []. cbn. now rewrite app_nil_r.
  - destruct (cycle_events cfg w st) as (ts' & old' & mid & Hc & _ & _).
    cbn [poll_loop]. rewrite (bind_ok _ _ _ _ _ Hc).
    destruct (IH (mkState ts' old'
                    (trace st ++ request cfg (timestamp st) :: mid ++ [Sleep RETRY_PERIOD])))
      as (Hok & evs & Htr).
    split; [exact Hok|]. rewrite Htr. cbn [trace]. rewrite <- app_assoc. eauto.
Qed.

(** When the body of the loop goes through on a response, the cursor is
    the 'current_date' of that response. *)
Lemma poll_success_cursor cfg w st r d current_date :
  requests_get w ENDPOINT (HEADERS_Authorization cfg) (timestamp st) = inr r ->
  status_code r = 200 ->
  json r = inr (PDict d) ->
  lookup "current_date" d = Some current_date ->
  fst (poll cfg w st) = Ok tt ->
  exists st1, poll cfg w st = (Ok tt, st1) /\ timestamp st1 = current_date.
Proof.
  intros H Hcode Hjson Hd Hok.
  pose proof (get_api_answer_ok cfg w (timestamp st) st r H Hcode) as Hapi.
  rewrite Hjson in Hapi.
  destruct (check_response (PDict d)) as [homeworks|e|] eqn:Hc.
  3:{ now apply check_response_no_exit in Hc. }
  2:{ rewrite (poll_validator_raise _ _ _ _ _ _ Hapi Hc) in Hok. discriminate. }
  destruct (check_response_ok_inv _ _ Hc) as (d' & cd' & [= <-] & Hh & _).
  destruct homeworks as [|first rest].
  { eexists. split; [apply (poll_no_homeworks _ _ _ _ _ _ Hapi Hh Hd)|reflexivity]. }
  destruct (py_get first "status") as [new_status|e|] eqn:Hg.
  3:{ destruct first; discriminate. }
  2:{ rewrite (poll_get_raise _ _ _ _ _ _ _ _ Hapi Hc Hg) in Hok. discriminate. }
  destruct (py_ne new_status
              (old_status (extend st [request cfg (timestamp st);
                                      Log INFO "Запрос к API выполнен"]))) eqn:Hne.
  - destruct (parse_status first) as [message|e|] eqn:Hp.
    3:{ now apply parse_status_no_exit in Hp. }
    2:{ rewrite (poll_parser_raise _ _ _ _ _ _ _ _ _ Hapi Hc Hg Hne Hp) in Hok.
        discriminate. }
    eexists. split;
      [apply (poll_new_status _ _ _ _ _ _ _ _ _ _ Hapi Hh Hd Hg Hne Hp)|reflexivity].
  - eexists. split;
      [apply (poll_same_status _ _ _ _ _ _ _ _ _ Hapi Hh Hd Hg Hne)|reflexivity].
Qed.

(** X15. The request of an iteration asks from where the one before has
    left the cursor: after a failure it repeats the [from_date] of the
    failed iteration, and after an iteration whose body went through on
    a response it carries the 'current_date' of that response, whatever
    value that is. *)
Theorem next_request_follows_cursor (cfg : environ) (w w' : world) (st : state) :
  (forall error st1,
     poll cfg w st = (Raise error, st1) ->
     exists evs,
       trace (snd (cycle cfg w' (snd (cycle cfg w st))))
       = (trace (snd (cycle cfg w st)) ++ request cfg (timestamp st) :: evs)%list) /\
  (forall r d current_date,
     requests_get w ENDPOINT (HEADERS_Authorization cfg) (timestamp st) = inr r ->
     status_code r = 200 ->
     json r = inr (PDict d) ->
     lookup "current_date" d = Some current_date ->
     fst (poll cfg w st) = Ok tt ->
     exists evs,
       trace (snd (cycle cfg w' (snd (cycle cfg w st))))
       = (trace (snd (cycle cfg w st)) ++ request cfg current_date :: evs)%list).
Proof.
  assert (Hnext : forall st', exists evs,
            trace (snd (cycle cfg w' st'))
            = (trace st' ++ request cfg (timestamp st') :: evs)%list).
  { intros st'. destruct (cycle_events cfg w' st') as (ts' & old' & mid & Hc & _ & _).
    rewrite Hc. cbn [snd trace]. eauto. }
  split.
  - intros error st1 Hp.
    assert (Hts : timestamp (snd (cycle cfg w st)) = timestamp st).
    { rewrite (cycle_raise _ _ _ _ _ Hp). cbn [snd extend timestamp].
      destruct (poll_shape cfg w st) as (r & ts' & old' & mid & Hp' & _ & _ & _ & Hraise).
      rewrite Hp in Hp'. injection Hp' as <- ->.
      now destruct (Hraise error eq_refl) as (_ & -> & _). }
    destruct (Hnext (snd (cycle cfg w st))) as (evs & Hevs).
    rewrite Hts in Hevs. eauto.
  - intros r d cd H Hcode Hjson Hd Hok.
    assert (Hts : timestamp (snd (cycle cfg w st)) = cd).
    { destruct (poll_success_cursor _ _ _ _ _ _ H Hcode Hjson Hd Hok) as (st1 & Hp & <-).
      now rewrite (cycle_ok _ _ _ _ Hp). }
    destruct (Hnext (snd (cycle cfg w st))) as (evs & Hevs).
    rewrite Hts in Hevs. eauto.
Qed.

(** After an unreachable endpoint the cursor 1000 is asked again; after
    the scenario the next request asks from 1600. *)
Lemma next_request_follows_cursor_witness :
  (exists evs,
     trace (snd (cycle sample_environ scenario_world
                   (snd (cycle sample_environ (unreachable delivering) scenario_state))))
     = (trace (snd (cycle sample_environ (unreachable delivering) scenario_state))
        ++ request sample_environ (PInt 1000) :: evs)%list) /\
  (exists evs,
     trace (snd (cycle sample_environ scenario_world
                   (snd (cycle sample_environ scenario_world scenario_state))))
     = (trace (snd (cycle sample_environ scenario_world scenario_state))
        ++ request sample_environ (PInt 1600) :: evs)%list).
Proof.
  split.
  - apply (proj1 (next_request_follows_cursor sample_environ (unreachable delivering)
                    scenario_world scenario_state)
             (mkExc Exception "timed out")
             (extend scenario_state [request sample_environ (PInt 1000)])).
    reflexivity.
  - apply (proj2 (next_request_follows_cursor sample_environ scenario_world
                    scenario_world scenario_state)
             (mkResponse 200 "" (inr scenario_response))
             [("homeworks", PList [scenario_homework]); ("current_date", PInt 1600)]
             (PInt 1600)); reflexivity.
Defined.

(** ** Startup *)

(** X16. With PRACTICUM_TOKEN and CHAT_ID set, [main] logs nothing at
    startup.  If the constructor of the bot raises, [main] ends with
    that exception before any request.  Otherwise [main] is the loop
    started with the cursor at the current time and an empty Last
    Status, every iteration ends normally, and the first request carries
    that time and the header "OAuth <PRACTICUM_TOKEN>". *)
Theorem main_starts_loop_at_now (cfg : environ) (Bot_new : option string -> option pyexc)
    (now : Z) (ws : list world) (p c : string) :
  PRACTICUM_TOKEN cfg = Some p ->
  TELEGRAM_CHAT_ID cfg = Some c ->
  (forall error,
     Bot_new (TELEGRAM_TOKEN cfg) = Some error ->
     main cfg Bot_new now ws start = (Raise error, start)) /\
  (Bot_new (TELEGRAM_TOKEN cfg) = None ->
   main cfg Bot_new now ws start = poll_loop cfg ws (mkState (PInt now) (PStr "") []) /\
   fst (main cfg Bot_new now ws start) = Ok tt /\
   forall w ws',
     ws = w :: ws' ->
     exists evs,
       trace (snd (main cfg Bot_new now ws start))
       = HttpGet ENDPOINT ("OAuth " ++ p) (PInt now) :: evs).
Proof.
  intros Hp Hc.
  pose proof (check_tokens_present cfg start p c Hp Hc) as Hcheck.
  split.
  - intros error Hbot. unfold main. rewrite (bind_ok _ _ _ _ _ Hcheck), Hbot.
    reflexivity.
  - intros Hbot.
    assert (Hmain : main cfg Bot_new now ws start
                    = poll_loop cfg ws (mkState (PInt now) (PStr "") [])).
    { unfold main. rewrite (bind_ok _ _ _ _ _ Hcheck), Hbot. reflexivity. }
    split; [exact Hmain|]. rewrite Hmain.
    split; [apply poll_loop_extends|].
    intros w ws' ->. cbn [poll_loop].
    destruct (cycle_events cfg w (mkState (PInt now) (PStr "") []))
      as (ts' & old' & mid & Hcyc & _ & _).
    rewrite (bind_ok _ _ _ _ _ Hcyc).
    destruct (poll_loop_extends cfg ws'
                (mkState ts' old'
                   (trace (mkState (PInt now) (PStr "") [])
                    ++ request cfg (timestamp (mkState (PInt now) (PStr "") []))
                    :: mid ++ [Sleep RETRY_PERIOD])))
      as (_ & evs & Htr).
    rewrite Htr. cbn [trace timestamp app].
    unfold request, HEADERS_Authorization. rewrite Hp. cbn [str_of_env]. eauto.
Qed.

(** The sample configuration at time 1000, with a constructor that
    refuses the token and with one that builds the bot. *)
Lemma main_starts_loop_at_now_witness :
  main sample_environ (fun _ => Some invalid_token) 1000 [scenario_world] start
  = (Raise invalid_token, start) /\
  exists evs,
    trace (snd (main sample_environ (fun _ => None) 1000
                  [scenario_world; unreachable delivering] start))
    = HttpGet ENDPOINT "OAuth practicum-token" (PInt 1000) :: evs.
Proof.
  split.
  - apply (proj1 (main_starts_loop_at_now sample_environ (fun _ => Some invalid_token)
                    1000 [scenario_world] "practicum-token" "chat-id"
                    eq_refl eq_refl)).
    reflexivity.
  - destruct (proj2 (main_starts_loop_at_now sample_environ (fun _ => None) 1000
                       [scenario_world; unreachable delivering]
                       "practicum-token" "chat-id" eq_refl eq_refl) eq_refl)
      as (_ & _ & Hfirst).
    apply (Hfirst scenario_world [unreachable delivering]). reflexivity.
Defined.

(** ** [send_message] and [check_tokens] *)

(** X17. [send_message] calls the bot exactly once, for the chat of the
    configuration and with the text it was given, and then writes exactly
    one line of log: at debug level, repeating the text, if and only if
    the bot delivered, and at error level otherwise.  It returns normally
    and does not touch the cursor or Last Status. *)
Theorem send_message_calls_bot_once (cfg : environ) (b : Bot) (message : string)
    (st : state) :
  exists lvl text,
    send_message cfg b message st
    = (Ok tt,
       mkState (timestamp st) (old_status st)
         (trace st ++ [BotSend (TELEGRAM_CHAT_ID cfg) message; Log lvl text])%list) /\
    (bot_send_message b (TELEGRAM_CHAT_ID cfg) message = None <-> lvl = DEBUG) /\
    (lvl = DEBUG \/ lvl = ERROR) /\
    (lvl = DEBUG -> text = "Бот отправил сообщение: " ++ message).
Proof.
  rewrite send_message_run. unfold delivery_log, extend.
  destruct (bot_send_message b (TELEGRAM_CHAT_ID cfg) message) as [error|].
  - exists ERROR, ("Сбой в отправке сообщения с ошибкой " ++ exc_str error).
    split; [reflexivity|]. split; [split; discriminate|]. split; [now right|discriminate].
  - exists DEBUG, ("Бот отправил сообщение: " ++ message).
    split; [reflexivity|]. split; [now split|]. split; [now left|reflexivity].
Qed.

(** X18. [check_tokens] exits, after one line at critical level, exactly
    when PRACTICUM_TOKEN or CHAT_ID is not set; otherwise it returns and
    records nothing.  TELEGRAM_TOKEN plays no part in it. *)
Theorem check_tokens_exits_iff (cfg : environ) (st : state) :
  (fst (check_tokens cfg st) = SystemExit <->
   PRACTICUM_TOKEN cfg = None \/ TELEGRAM_CHAT_ID cfg = None) /\
  (fst (check_tokens cfg st) = SystemExit ->
   snd (check_tokens cfg st) = extend st [Log CRITICAL missing_variable_message]) /\
  (fst (check_tokens cfg st) <> SystemExit -> check_tokens cfg st = (Ok tt, st)).
Proof.
  destruct (PRACTICUM_TOKEN cfg) as [p|] eqn:Hp.
  - destruct (TELEGRAM_CHAT_ID cfg) as [c|] eqn:Hc.
    + rewrite (check_tokens_present cfg st p c Hp Hc).
      split; [split; [discriminate|intros [H|H]; discriminate]|].
      split; [discriminate|reflexivity].
    + rewrite (check_tokens_chat_absent cfg st Hc).
      split; [split; [now right|reflexivity]|].
      split; [reflexivity|]. intros H. now destruct H.
  - rewrite (check_tokens_practicum_absent cfg st Hp).
    split; [split; [now left|reflexivity]|].
    split; [reflexivity|]. intros H. now destruct H.
Qed.
